(** * BBS fitment assistant: the chat route handler

    A shallow embedding of [src/app/api/chat/route.ts]: the URL audit
    [validateAndFilterUrls] and the request handler [POST].  The three
    revisions of the file kept in the repository differ only in the text
    of the instruction template [BBS_SYSTEM_PROMPT]; the handler code is
    the same in all of them.

    Conventions of the embedding.
    - A JavaScript string is a [string]; each [ascii] is one code unit in
      the range U+0000..U+00FF.  Code units above U+00FF are outside the
      model.
    - Values that come out of [JSON.parse] or of a property read are
      [JSValue]s.
    - Exceptions are explicit: a computation returns a [Completion].
    - Console output and calls to the hosted services are recorded, in
      program order, in a list of [Event]s. *)

From Stdlib Require Import Bool Arith List String Ascii ZArith QArith.
From Stdlib Require Import DecimalString.
Import ListNotations.

Local Open Scope string_scope.
Local Open Scope list_scope.
Local Open Scope nat_scope.

Set Implicit Arguments.

(** ** JavaScript string primitives *)

Module JSString.

(** Line feed, used by the template literals of the handler. *)
Definition LF : string := String (ascii_of_nat 10) EmptyString.

(** [WhiteSpace] and [LineTerminator] code units below U+0100: TAB, LF,
    VT, FF, CR, SP and NBSP.  This is both the [\s] class of a regular
    expression and the set stripped by [String.prototype.trim]. *)
Definition isSpace (c : ascii) : bool :=
  let n := nat_of_ascii c in
  ((9 <=? n) && (n <=? 13)) || (n =? 32) || (n =? 160).

(** Lower-case mapping of one code unit: A-Z, and the Latin-1 capitals
    U+00C0..U+00DE except the multiplication sign U+00D7. *)
Definition toLowerChar (c : ascii) : ascii :=
  let n := nat_of_ascii c in
  if ((65 <=? n) && (n <=? 90))
     || ((192 <=? n) && (n <=? 222) && negb (n =? 215))
  then ascii_of_nat (n + 32)
  else c.

(** [s.toLowerCase()] *)
Fixpoint toLowerCase (s : string) : string :=
  match s with
  | EmptyString => EmptyString
  | String c s' => String (toLowerChar c) (toLowerCase s')
  end.

(** [s.startsWith(p)] *)
Definition startsWith (s p : string) : bool := String.prefix p s.

(** [s.includes(sub)]: [sub] occurs at some position of [s]. *)
Fixpoint includes (s sub : string) : bool :=
  startsWith s sub
  || match s with
     | EmptyString => false
     | String _ s' => includes s' sub
     end.

Fixpoint dropSpaces (s : string) : string :=
  match s with
  | EmptyString => EmptyString
  | String c s' => if isSpace c then dropSpaces s' else s
  end.

(** Removes trailing white space. *)
Fixpoint dropSpacesEnd (s : string) : string :=
  match s with
  | EmptyString => EmptyString
  | String c s' =>
      match dropSpacesEnd s' with
      | EmptyString => if isSpace c then EmptyString else String c EmptyString
      | r => String c r
      end
  end.

(** [s.trim()] *)
Definition trim (s : string) : string := dropSpacesEnd (dropSpaces s).

(** Truthiness of a string: the empty string is the only falsy one. *)
Definition truthyString (s : string) : bool :=
  match s with EmptyString => false | _ => true end.

(** [xs.join(sep)] on an array of strings. *)
Fixpoint join (sep : string) (xs : list string) : string :=
  match xs with
  | [] => EmptyString
  | [x] => x
  | x :: rest => x ++ sep ++ join sep rest
  end.

(** Decimal rendering of an array length inside a template literal. *)
Definition ofNat (n : nat) : string := NilEmpty.string_of_uint (Nat.to_uint n).

End JSString.
Import JSString.

(** ** Values, exceptions and the event trace *)

(** A JavaScript value as [JSON.parse] produces it, plus [undefined] for
    the result of reading a property that is not there.  Numbers are the
    integer-valued ones; the handler only tests them for truthiness. *)
#[warnings="-register-all"]
Inductive JSValue : Type :=
| JUndefined
| JNull
| JBool (b : bool)
| JNum (z : Z)
| JStr (s : string)
| JArr (items : list JSValue)
| JObj (fields : list (string * JSValue)).

Inductive JSError : Type :=
| TypeError (msg : string)
| SyntaxError (msg : string)
| ServiceError (msg : string).

(** Outcome of evaluating a piece of code: a value, or a thrown error. *)
Inductive Completion (A : Type) : Type :=
| Normal (a : A)
| Throw (e : JSError).
Arguments Normal {A} a.
Arguments Throw {A} e.

(** ToBoolean. *)
Definition truthy (v : JSValue) : bool :=
  match v with
  | JUndefined | JNull => false
  | JBool b => b
  | JNum z => negb (z =? 0)%Z
  | JStr s => truthyString s
  | JArr _ | JObj _ => true
  end.

Fixpoint ownProperty (key : string) (fields : list (string * JSValue)) : JSValue :=
  match fields with
  | [] => JUndefined
  | (k, v) :: rest => if (k =? key)%string then v else ownProperty key rest
  end.

(** [v.key], for the keys the handler reads ([collection_url], [file_name],
    [filename]): none of them is an array index, [length] or an inherited
    member, so only an object can have one.  Reading a property of [null]
    or [undefined] throws. *)
Definition getProp (v : JSValue) (key : string) : Completion JSValue :=
  match v with
  | JUndefined => Throw (TypeError "Cannot read properties of undefined")
  | JNull => Throw (TypeError "Cannot read properties of null")
  | JObj fields => Normal (ownProperty key fields)
  | JBool _ | JNum _ | JStr _ | JArr _ => Normal JUndefined
  end.

(** One part of a UI message.  [mediaType] is optional because the handler
    reads it with [?.].  A part is an object whose [text] and [mediaType],
    when present, are strings; a [null] element of [parts], or a
    [mediaType] that is present but not a string, makes the handler throw
    while it reads the parts and is outside the model. *)
Inductive UIPart : Type :=
| TextPart (text : string)
| FilePart (mediaType : option string) (url : string)
| OtherPart (type : string).

(** An element of the [messages] array.  Every field is optional: the
    handler does not validate the body, so an element may lack any of
    them.  [parts] is [None] when the element has no [parts] array: the
    element is [null] or a primitive, or its [parts] is absent or is not
    an array.  In each case [lastMessage.parts.filter(...)] throws a
    [TypeError]. *)
Record UIMessage : Type := mkUIMessage {
  id : option string;
  role : option string;
  parts : option (list UIPart)
}.

(** The request's [AbortSignal], an opaque token. *)
Definition AbortSignal : Type := nat.

(** The options object handed to [streamText].  The [onFinish] closure is
    represented by the array it captures ([validCollectionUrls]), the
    [onAbort] closure by the line it logs. *)
Record StreamTextCall : Type := mkStreamTextCall {
  model : string;
  messages : list UIMessage;
  temperature : Q;
  abortSignal : AbortSignal;
  onFinish : option (list JSValue);
  onAbort : string
}.

(** What the handler does that can be observed from outside, in order. *)
Inductive Event : Type :=
| ConsoleLog (msg : string)
| ConsoleWarn (msg : string)
| ConsoleError (msg : string) (error : JSError)
| VectorStoreSearch (query : string) (max_num_results : nat)
| StreamText (call : StreamTextCall).

(** The handler's return value: the UI message stream of a generation
    call. *)
Inductive Response : Type :=
| UIMessageStreamResponse (call : StreamTextCall).

(** ** Computations that log and may throw *)

Module Run.

Definition M (A : Type) : Type := list Event * Completion A.

Definition ret {A} (a : A) : M A := ([], Normal a).

Definition throw {A} (e : JSError) : M A := ([], Throw e).

Definition emit (ev : Event) : M unit := ([ev], Normal tt).

Definition lift {A} (c : Completion A) : M A := ([], c).

Definition bind {A B} (m : M A) (k : A -> M B) : M B :=
  match m with
  | (t, Normal a) => let (t', r) := k a in (t ++ t', r)
  | (t, Throw e) => (t, Throw e)
  end.

(** [try { m } catch (error) { handler error }] *)
Definition tryCatch {A} (m : M A) (handler : JSError -> M A) : M A :=
  match m with
  | (t, Throw e) => let (t', r) := handler e in (t ++ t', r)
  | (t, Normal a) => (t, Normal a)
  end.

(** Sequencing of two steps that may throw but do not log. *)
Definition andThen {A B} (c : Completion A) (k : A -> Completion B) : Completion B :=
  match c with
  | Normal a => k a
  | Throw e => Throw e
  end.

Definition trace {A} (m : M A) : list Event := fst m.

Definition result {A} (m : M A) : Completion A := snd m.

(** [xs.forEach(f)] *)
Fixpoint forEach {A} (f : A -> M unit) (xs : list A) : M unit :=
  match xs with
  | [] => ret tt
  | x :: rest => bind (f x) (fun _ => forEach f rest)
  end.

End Run.
Import Run.

Declare Scope run_scope.
Delimit Scope run_scope with run.
Notation "x <- m ;; k" := (bind m (fun x => k))
  (at level 61, m at next level, right associativity) : run_scope.
Notation "m ;;; k" := (bind m (fun _ => k))
  (at level 61, right associativity) : run_scope.
Notation "x <~ c ;; k" := (andThen c (fun x => k))
  (at level 61, c at next level, right associativity) : run_scope.
Local Open Scope run_scope.

(** ** The URL pattern [/https?:\/\/[^\s)]+/g] *)

Module UrlPattern.

(** Consumes the literal [p] at the head of [s]. *)
Fixpoint stripPrefix (p s : string) : option string :=
  match p, s with
  | EmptyString, _ => Some s
  | String a p', String b s' => if Ascii.eqb a b then stripPrefix p' s' else None
  | String _ _, EmptyString => None
  end.

(** The class [[^\s)]]. *)
Definition urlChar (c : ascii) : bool :=
  negb (isSpace c) && negb (Ascii.eqb c ")"%char).

Fixpoint takeWhile (f : ascii -> bool) (s : string) : string :=
  match s with
  | EmptyString => EmptyString
  | String c s' => if f c then String c (takeWhile f s') else EmptyString
  end.

(** [:\/\/[^\s)]+] at the head of [s]; the greedy [+] takes the longest
    run and needs at least one character. *)
Definition matchTail (s : string) : option string :=
  match stripPrefix "://" s with
  | None => None
  | Some r =>
      match takeWhile urlChar r with
      | EmptyString => None
      | body => Some ("://" ++ body)%string
      end
  end.

(** The whole pattern anchored at the head of [s].  [s?] is greedy: the
    branch that consumes an [s] is tried first, the one that does not is
    the backtracking alternative. *)
Definition matchAt (s : string) : option string :=
  match stripPrefix "http" s with
  | None => None
  | Some r =>
      let withS :=
        match r with
        | String c r' =>
            if Ascii.eqb c "s"%char
            then option_map (append "https") (matchTail r')
            else None
        | EmptyString => None
        end in
      match withS with
      | Some m => Some m
      | None => option_map (append "http") (matchTail r)
      end
  end.

(** Global matching: leftmost match first, then the search resumes right
    after it.  [skip] counts the characters of the current match that are
    still to be stepped over. *)
Fixpoint matchAll (s : string) (skip : nat) : list string :=
  match s with
  | EmptyString => []
  | String _ s' =>
      match skip with
      | S k => matchAll s' k
      | O =>
          match matchAt s with
          | Some m => m :: matchAll s' (String.length m - 1)
          | None => matchAll s' 0
          end
      end
  end.

(** [text.match(urlPattern) || []] *)
Definition textMatch (text : string) : list string := matchAll text 0.

End UrlPattern.
Import UrlPattern.

(** ** [validateAndFilterUrls] *)

(** The designated domain, as written in the source. *)
Definition BBS_DOMAIN : string := "BBSwheels.com".

(** The callback of [validUrls.some]:
    [validUrl.toLowerCase() === url.toLowerCase() || url.startsWith(validUrl)].
    The parameter is declared [string[]]; an element that is not a string
    at run time has no [toLowerCase] and the call throws. *)
Definition matchesValidUrl (url : string) (validUrl : JSValue) : Completion bool :=
  match validUrl with
  | JStr v =>
      Normal ((toLowerCase v =? toLowerCase url)%string || startsWith url v)
  | _ => Throw (TypeError "validUrl.toLowerCase is not a function")
  end.

(** [validUrls.some(...)]: stops at the first element that matches. *)
Fixpoint someValid (url : string) (validUrls : list JSValue) : Completion bool :=
  match validUrls with
  | [] => Normal false
  | v :: rest =>
      match matchesValidUrl url v with
      | Throw e => Throw e
      | Normal true => Normal true
      | Normal false => someValid url rest
      end
  end.

Definition invalidUrlWarning (url : string) : string :=
  "Filtered out invalid BBS URL: " ++ url.

(** The body of [foundUrls.forEach]. *)
Definition auditUrl (validUrls : list JSValue) (url : string) : M unit :=
  if includes url BBS_DOMAIN then
    isValid <- lift (someValid url validUrls) ;;
    if negb isValid then emit (ConsoleWarn (invalidUrlWarning url)) else ret tt
  else ret tt.

Definition validateAndFilterUrls (text : string) (validUrls : list JSValue) : M string :=
  let foundUrls := textMatch text in
  let filteredText := text in
  forEach (auditUrl validUrls) foundUrls ;;;
  ret filteredText.

(** The [onFinish] callback of the primary generation call. *)
Definition onFinishCallback (validCollectionUrls : list JSValue) (text : string) : M unit :=
  validated <- validateAndFilterUrls text validCollectionUrls ;;
  if negb (validated =? text)%string
  then emit (ConsoleWarn "Response contained invalid URLs that were flagged")
  else ret tt.

(** Whether the audit warns about [url] when every element of the trusted
    set is a string, as its declared type says. *)
Definition warnsAbout (validUrls : list string) (url : string) : bool :=
  includes url BBS_DOMAIN
  && negb (existsb (fun v => (toLowerCase v =? toLowerCase url)%string
                             || startsWith url v) validUrls).

(** ** The request handler *)

(** One element of [searchResults.data]: the content payload and the
    [metadata] property the handler reads through [(result as any)];
    [JUndefined] when the property is absent. *)
Record SearchResult : Type := mkSearchResult {
  content : JSValue;
  metadata : JSValue
}.

(** The parsed body.  [body_messages] is [None] when the body has no
    [messages] property (or is not an object at all) or when the property
    is [null]: reading [messages.length] then throws a [TypeError].
    [Some ms] is a [messages] array with the elements [ms].  Any other
    [messages] value, such as an object that is not an array, is outside
    the model. *)
Record Body : Type := mkBody {
  body_messages : option (list UIMessage)
}.

(** The incoming request: what [req.json()] settles to ([Throw] when the
    body is not valid JSON) and [req.signal]. *)
Record Request : Type := mkRequest {
  json : Completion Body;
  signal : AbortSignal
}.

(** The hosted services, as the handler sees them during one request.
    [streamText_throws] tells whether building and starting a generation
    call throws synchronously (for instance [convertToModelMessages]
    rejecting the message list). *)
Record Services : Type := mkServices {
  vectorStores_search : string -> nat -> Completion (list SearchResult);
  streamText_throws : StreamTextCall -> option JSError
}.

Definition PRIMARY_MARKER : string := "BBS_wheels.json".

(** The separator of [allData.join]: a rule between two blank lines. *)
Definition CONTEXT_SEPARATOR : string := LF ++ LF ++ "---" ++ LF ++ LF.

Definition CONTEXT_BEGIN : string := "===== VECTOR DB DATA =====".
Definition CONTEXT_END : string := "===== END VECTOR DB DATA =====".

Definition GPT_4O : string := "gpt-4o".
Definition GPT_4O_MINI : string := "gpt-4o-mini".

(** The literal [0.3]. *)
Definition TEMPERATURE : Q := 3 # 10.

Definition partType (p : UIPart) : string :=
  match p with
  | TextPart _ => "text"
  | FilePart _ _ => "file"
  | OtherPart t => t
  end.

(** [part.text]; [None] is [undefined]. *)
Definition partText (p : UIPart) : option string :=
  match p with
  | TextPart t => Some t
  | _ => None
  end.

(** [part.mediaType]; [None] is [undefined]. *)
Definition partMediaType (p : UIPart) : option string :=
  match p with
  | FilePart mt _ => mt
  | _ => None
  end.

(** [Array.prototype.join] renders [undefined] as the empty string. *)
Definition orEmpty (o : option string) : string :=
  match o with
  | Some s => s
  | None => EmptyString
  end.

(** [messages[messages.length - 1]]; [None] is [undefined]. *)
Definition lastElement {A} (xs : list A) : option A :=
  match xs with
  | [] => None
  | _ :: _ => nth_error xs (List.length xs - 1)
  end.

(** [parts.filter(p => p.type === "text").map(p => p.text).join(" ")] *)
Definition extractUserQuery (lastParts : list UIPart) : string :=
  join " "
    (map orEmpty
       (map partText
          (filter (fun part => (partType part =? "text")%string) lastParts))).

(** [parts.some(p => p.type === "file" && p.mediaType?.startsWith("image/"))] *)
Definition detectImages (lastParts : list UIPart) : bool :=
  existsb
    (fun part =>
       (partType part =? "file")%string
       && match partMediaType part with
          | Some mt => startsWith mt "image/"
          | None => false
          end)
    lastParts.

Section Handler.

(** The instruction template, a constant of some two hundred lines that
    the handler only concatenates. *)
Variable BBS_SYSTEM_PROMPT : string.

(** The platform's [JSON.parse] ([None] stands for the [SyntaxError]) and
    [JSON.stringify]. *)
Variable JSON_parse : string -> option JSValue.
Variable JSON_stringify : JSValue -> string.

(** [typeof result.content === "string" ? result.content
                                        : JSON.stringify(result.content)] *)
Definition contentString (result : SearchResult) : string :=
  match content result with
  | JStr s => s
  | v => JSON_stringify v
  end.

(** *** Collecting the trusted URLs

    [validCollectionUrls] is an array that the loop pushes to; it is
    threaded through as the first component of the result, so that the
    pushes made before a throw are kept. *)

(** [if (v.collection_url) validCollectionUrls.push(v.collection_url)] *)
Definition recordUrl (v : JSValue) (urls : list JSValue)
  : list JSValue * Completion unit :=
  match getProp v "collection_url" with
  | Throw e => (urls, Throw e)
  | Normal u => (if truthy u then urls ++ [u] else urls, Normal tt)
  end.

(** [parsed.forEach(item => ...)] *)
Fixpoint recordItems (items : list JSValue) (urls : list JSValue)
  : list JSValue * Completion unit :=
  match items with
  | [] => (urls, Normal tt)
  | item :: rest =>
      match recordUrl item urls with
      | (urls', Normal _) => recordItems rest urls'
      | (urls', Throw e) => (urls', Throw e)
      end
  end.

(** The body of the inner [try]. *)
Definition recordFromContent (contentString : string) (urls : list JSValue)
  : list JSValue * Completion unit :=
  match JSON_parse contentString with
  | None => (urls, Throw (SyntaxError "JSON.parse"))
  | Some parsed =>
      match recordUrl parsed urls with
      | (urls', Throw e) => (urls', Throw e)
      | (urls', Normal _) =>
          match parsed with
          | JArr items => recordItems items urls'
          | _ => (urls', Normal tt)
          end
      end
  end.

(** [try { ... } catch { }]: whatever was thrown is dropped. *)
Definition recordFromResult (urls : list JSValue) (result : SearchResult)
  : list JSValue :=
  fst (recordFromContent (contentString result) urls).

(** The first [searchResults.data.forEach]. *)
Definition extractCollectionUrls (data : list SearchResult) : list JSValue :=
  fold_left recordFromResult data [].

(** *** Ordering the snippets *)

(** [metadata.file_name || metadata.filename || ""], where [metadata] is
    [(result as any).metadata || {}]. *)
Definition fileNameOf (result : SearchResult) : Completion JSValue :=
  let metadata := if truthy (metadata result) then metadata result else JObj [] in
  a <~ getProp metadata "file_name" ;;
  if truthy a then Normal a
  else
    b <~ getProp metadata "filename" ;;
    if truthy b then Normal b else Normal (JStr EmptyString).

(** [fileName.toLowerCase()]: only a string has the method. *)
Definition callToLowerCase (fileName : JSValue) : Completion string :=
  match fileName with
  | JStr s => Normal (toLowerCase s)
  | _ => Throw (TypeError "fileName.toLowerCase is not a function")
  end.

(** [fileName.toLowerCase().includes("BBS_wheels.json")] *)
Definition isPrimarySource (result : SearchResult) : Completion bool :=
  fileName <~ fileNameOf result ;;
  lower <~ callToLowerCase fileName ;;
  Normal (includes lower PRIMARY_MARKER).

(** The second [searchResults.data.forEach], threading the two arrays. *)
Fixpoint partitionResults (data : list SearchResult)
  (BBSWheelsData otherData : list string)
  : Completion (list string * list string) :=
  match data with
  | [] => Normal (BBSWheelsData, otherData)
  | result :: rest =>
      primary <~ isPrimarySource result ;;
      if primary
      then partitionResults rest (BBSWheelsData ++ [contentString result]) otherData
      else partitionResults rest BBSWheelsData (otherData ++ [contentString result])
  end.

(** [[...BBSWheelsData, ...otherData].join("\n\n---\n\n")] *)
Definition assembleContext (groups : list string * list string) : string :=
  let allData := fst groups ++ snd groups in
  join CONTEXT_SEPARATOR allData.

Definition logGroupSizes (groups : list string * list string) : M unit :=
  (if 0 <? List.length (fst groups)
   then emit (ConsoleLog ("Found " ++ ofNat (List.length (fst groups))
                          ++ " results from BBS_wheels.json (primary source)"))
   else ret tt) ;;;
  (if 0 <? List.length (snd groups)
   then emit (ConsoleLog ("Found " ++ ofNat (List.length (snd groups))
                          ++ " results from secondary sources"))
   else ret tt).

(** *** The two generation paths *)

Variable services : Services.

Definition search (query : string) (max_num_results : nat) : M (list SearchResult) :=
  ([VectorStoreSearch query max_num_results],
   vectorStores_search services query max_num_results).

Definition streamText (call : StreamTextCall) : M Response :=
  ([StreamText call],
   match streamText_throws services call with
   | Some e => Throw e
   | None => Normal (UIMessageStreamResponse call)
   end).

(** The [if (userQuery.trim())] block: yields [contextText] and
    [validCollectionUrls]. *)
Definition retrieveContext (userQuery : string) : M (string * list JSValue) :=
  if truthyString (trim userQuery) then
    searchResults <- search userQuery 10 ;;
    let validCollectionUrls := extractCollectionUrls searchResults in
    groups <- lift (partitionResults searchResults [] []) ;;
    let contextText := assembleContext groups in
    logGroupSizes groups ;;;
    ret (contextText, validCollectionUrls)
  else ret (EmptyString, []).

(** The delimited block appended after the template, or nothing. *)
Definition contextBlock (contextText : string) : string :=
  if truthyString contextText
  then LF ++ LF ++ CONTEXT_BEGIN ++ LF ++ contextText ++ LF ++ CONTEXT_END ++ LF
  else EmptyString.

Definition systemPromptWithContext (contextText : string) : string :=
  BBS_SYSTEM_PROMPT ++ LF ++ LF ++ contextBlock contextText.

Definition systemMessage (text : string) : UIMessage :=
  {| id := Some "system"; role := Some "system"; parts := Some [TextPart text] |}.

Definition primaryCall (req : Request) (messages : list UIMessage)
  (hasImages : bool) (contextText : string) (validCollectionUrls : list JSValue)
  : StreamTextCall :=
  {| model := if hasImages then GPT_4O else GPT_4O_MINI;
     messages := systemMessage (systemPromptWithContext contextText) :: messages;
     temperature := TEMPERATURE;
     abortSignal := signal req;
     onFinish := Some validCollectionUrls;
     onAbort := "Stream aborted by client" |}.

Definition fallbackCall (req : Request) (messages : list UIMessage) : StreamTextCall :=
  {| model := GPT_4O;
     messages := systemMessage BBS_SYSTEM_PROMPT :: messages;
     temperature := TEMPERATURE;
     abortSignal := signal req;
     onFinish := None;
     onAbort := "Stream aborted by client (fallback path)" |}.

(** The body of the [try]. *)
Definition primaryPath (req : Request) (messages : list UIMessage)
  (userQuery : string) (hasImages : bool) : M Response :=
  ctx <- retrieveContext userQuery ;;
  streamText (primaryCall req messages hasImages (fst ctx) (snd ctx)).

(** The body of the [catch]. *)
Definition fallbackPath (req : Request) (messages : list UIMessage)
  (error : JSError) : M Response :=
  emit (ConsoleError "Error querying OpenAI Vector Store:" error) ;;;
  streamText (fallbackCall req messages).

(** [export async function POST(req)] *)
Definition POST (req : Request) : M Response :=
  body <- lift (json req) ;;
  match body_messages body with
  | None => throw (TypeError "Cannot read properties of undefined (reading length)")
  | Some messages =>
      match lastElement messages with
      | None => throw (TypeError "Cannot read properties of undefined (reading parts)")
      | Some lastMessage =>
          match parts lastMessage with
          | None => throw (TypeError "Cannot read properties of undefined (reading filter)")
          | Some lastParts =>
              let userQuery := extractUserQuery lastParts in
              let hasImages := detectImages lastParts in
              tryCatch (primaryPath req messages userQuery hasImages)
                       (fallbackPath req messages)
          end
      end
  end.

End Handler.

(** ** A reference [JSON.parse] and [JSON.stringify]

    Used to run the handler on concrete inputs.  They follow ECMA-404 on
    the fragment the model can represent: number literals are integers
    (a fraction or an exponent is rejected) and [\u] escapes denote code
    units below U+0100. *)

Module RefJSON.

Definition DQUOTE : ascii := ascii_of_nat 34.
Definition BACKSLASH : ascii := ascii_of_nat 92.

(** Surrounds [s] with double quotes, without escaping. *)
Definition quoted (s : string) : string :=
  String DQUOTE (s ++ String DQUOTE EmptyString).

Definition isJsonSpace (c : ascii) : bool :=
  let n := nat_of_ascii c in
  (n =? 32) || (n =? 9) || (n =? 10) || (n =? 13).

Fixpoint skipSpaces (s : string) : string :=
  match s with
  | EmptyString => EmptyString
  | String c s' => if isJsonSpace c then skipSpaces s' else s
  end.

Definition digitValue (c : ascii) : option nat :=
  let n := nat_of_ascii c in
  if (48 <=? n) && (n <=? 57) then Some (n - 48) else None.

Definition hexValue (c : ascii) : option nat :=
  let n := nat_of_ascii c in
  if (48 <=? n) && (n <=? 57) then Some (n - 48)
  else if (65 <=? n) && (n <=? 70) then Some (n - 55)
  else if (97 <=? n) && (n <=? 102) then Some (n - 87)
  else None.

(** Reads the digits at the head of [s] into the accumulator. *)
Fixpoint readDigits (s : string) (acc : Z) : Z * string :=
  match s with
  | EmptyString => (acc, s)
  | String c s' =>
      match digitValue c with
      | Some d => readDigits s' (10 * acc + Z.of_nat d)%Z
      | None => (acc, s)
      end
  end.

(** [int] of the number grammar: [0], or a non-zero digit and more digits. *)
Definition readInt (s : string) : option (Z * string) :=
  match s with
  | EmptyString => None
  | String c s' =>
      match digitValue c with
      | None => None
      | Some 0 => Some (0%Z, s')
      | Some d => Some (readDigits s' (Z.of_nat d))
      end
  end.

Definition endsNumber (rest : string) : bool :=
  match rest with
  | String c _ =>
      negb (Ascii.eqb c "."%char || Ascii.eqb c "e"%char || Ascii.eqb c "E"%char)
  | EmptyString => true
  end.

Definition readNumber (s : string) : option (JSValue * string) :=
  let signed :=
    match s with
    | String c s' =>
        if Ascii.eqb c "-"%char
        then option_map (fun zr => (Z.opp (fst zr), snd zr)) (readInt s')
        else readInt s
    | EmptyString => None
    end in
  match signed with
  | Some (z, rest) => if endsNumber rest then Some (JNum z, rest) else None
  | None => None
  end.

Definition simpleEscape (c : ascii) : option ascii :=
  if Ascii.eqb c DQUOTE then Some DQUOTE
  else if Ascii.eqb c BACKSLASH then Some BACKSLASH
  else if Ascii.eqb c "/"%char then Some "/"%char
  else if Ascii.eqb c "b"%char then Some (ascii_of_nat 8)
  else if Ascii.eqb c "f"%char then Some (ascii_of_nat 12)
  else if Ascii.eqb c "n"%char then Some (ascii_of_nat 10)
  else if Ascii.eqb c "r"%char then Some (ascii_of_nat 13)
  else if Ascii.eqb c "t"%char then Some (ascii_of_nat 9)
  else None.

Definition hex4 (a b c d : ascii) : option ascii :=
  match hexValue a, hexValue b, hexValue c, hexValue d with
  | Some 0, Some 0, Some h, Some l => Some (ascii_of_nat (16 * h + l))
  | _, _, _, _ => None
  end.

(** The characters of a string literal after its opening quote, up to and
    including the closing one. *)
Fixpoint readStringBody (s : string) : option (string * string) :=
  match s with
  | EmptyString => None
  | String c s' =>
      if Ascii.eqb c DQUOTE then Some (EmptyString, s')
      else if Ascii.eqb c BACKSLASH then
        match s' with
        | String e s'' =>
            if Ascii.eqb e "u"%char then
              match s'' with
              | String h1 (String h2 (String h3 (String h4 r))) =>
                  match hex4 h1 h2 h3 h4, readStringBody r with
                  | Some ch, Some (str, rest) => Some (String ch str, rest)
                  | _, _ => None
                  end
              | _ => None
              end
            else
              match simpleEscape e, readStringBody s'' with
              | Some ch, Some (str, rest) => Some (String ch str, rest)
              | _, _ => None
              end
        | EmptyString => None
        end
      else if nat_of_ascii c <? 32 then None
      else
        match readStringBody s' with
        | Some (str, rest) => Some (String c str, rest)
        | None => None
        end
  end.

(** Defining a key again replaces its value and keeps its position. *)
Fixpoint setField (k : string) (v : JSValue) (fields : list (string * JSValue))
  : list (string * JSValue) :=
  match fields with
  | [] => [(k, v)]
  | (k', v') :: rest =>
      if (k' =? k)%string then (k', v) :: rest else (k', v') :: setField k v rest
  end.

Fixpoint readValue (fuel : nat) (s : string) {struct fuel}
  : option (JSValue * string) :=
  match fuel with
  | O => None
  | S fuel' =>
      match skipSpaces s with
      | EmptyString => None
      | String c s' as s0 =>
          if Ascii.eqb c DQUOTE then
            option_map (fun p => (JStr (fst p), snd p)) (readStringBody s')
          else if Ascii.eqb c "["%char then
            match skipSpaces s' with
            | String c1 r1 as s1 =>
                if Ascii.eqb c1 "]"%char then Some (JArr [], r1)
                else option_map (fun p => (JArr (fst p), snd p)) (readElements fuel' s1)
            | EmptyString => None
            end
          else if Ascii.eqb c "{"%char then
            match skipSpaces s' with
            | String c1 r1 as s1 =>
                if Ascii.eqb c1 "}"%char then Some (JObj [], r1)
                else option_map (fun p => (JObj (fst p), snd p)) (readMembers fuel' s1 [])
            | EmptyString => None
            end
          else
            match stripPrefix "null" s0, stripPrefix "true" s0, stripPrefix "false" s0 with
            | Some r, _, _ => Some (JNull, r)
            | _, Some r, _ => Some (JBool true, r)
            | _, _, Some r => Some (JBool false, r)
            | None, None, None => readNumber s0
            end
      end
  end

with readElements (fuel : nat) (s : string) {struct fuel}
  : option (list JSValue * string) :=
  match fuel with
  | O => None
  | S fuel' =>
      match readValue fuel' s with
      | None => None
      | Some (v, r) =>
          match skipSpaces r with
          | String c r' =>
              if Ascii.eqb c "]"%char then Some ([v], r')
              else if Ascii.eqb c ","%char then
                option_map (fun p => (v :: fst p, snd p)) (readElements fuel' r')
              else None
          | EmptyString => None
          end
      end
  end

with readMembers (fuel : nat) (s : string) (acc : list (string * JSValue))
  {struct fuel} : option (list (string * JSValue) * string) :=
  match fuel with
  | O => None
  | S fuel' =>
      match skipSpaces s with
      | String q s' =>
          if Ascii.eqb q DQUOTE then
            match readStringBody s' with
            | None => None
            | Some (k, r) =>
                match skipSpaces r with
                | String colon r1 =>
                    if Ascii.eqb colon ":"%char then
                      match readValue fuel' r1 with
                      | None => None
                      | Some (v, r2) =>
                          let acc' := setField k v acc in
                          match skipSpaces r2 with
                          | String c r3 =>
                              if Ascii.eqb c "}"%char then Some (acc', r3)
                              else if Ascii.eqb c ","%char then readMembers fuel' r3 acc'
                              else None
                          | EmptyString => None
                          end
                      end
                    else None
                | EmptyString => None
                end
            end
          else None
      | EmptyString => None
      end
  end.

(** [JSON.parse(text)] *)
Definition parse (text : string) : option JSValue :=
  match readValue (2 * String.length text + 2) text with
  | Some (v, rest) =>
      match skipSpaces rest with
      | EmptyString => Some v
      | _ => None
      end
  | None => None
  end.

Definition hexDigit (n : nat) : ascii :=
  if n <? 10 then ascii_of_nat (48 + n) else ascii_of_nat (87 + n).

Definition escapeChar (c : ascii) : string :=
  let n := nat_of_ascii c in
  if Ascii.eqb c DQUOTE then String BACKSLASH (String DQUOTE EmptyString)
  else if Ascii.eqb c BACKSLASH then String BACKSLASH (String BACKSLASH EmptyString)
  else if n =? 8 then String BACKSLASH "b"
  else if n =? 12 then String BACKSLASH "f"
  else if n =? 10 then String BACKSLASH "n"
  else if n =? 13 then String BACKSLASH "r"
  else if n =? 9 then String BACKSLASH "t"
  else if n <? 32 then
    String BACKSLASH
      ("u00" ++ String (hexDigit (n / 16)) (String (hexDigit (n mod 16)) EmptyString))
  else String c EmptyString.

Fixpoint escapeString (s : string) : string :=
  match s with
  | EmptyString => EmptyString
  | String c s' => escapeChar c ++ escapeString s'
  end.

(** [JSON.stringify(v)].  Inside an array [undefined] is written [null];
    a member whose value is [undefined] is left out.  At top level
    [JSON.stringify(undefined)] is [undefined], which the handler's uses
    ([JSON.parse] and [join]) treat like the empty string. *)
Fixpoint stringify (v : JSValue) : string :=
  match v with
  | JUndefined => EmptyString
  | JNull => "null"
  | JBool true => "true"
  | JBool false => "false"
  | JNum z => NilEmpty.string_of_int (Z.to_int z)
  | JStr s => quoted (escapeString s)
  | JArr items =>
      "[" ++ join ","
               (map (fun item =>
                       match item with
                       | JUndefined => "null"
                       | _ => stringify item
                       end) items)
          ++ "]"
  | JObj fields =>
      "{" ++ join ","
               ((fix members (fs : list (string * JSValue)) : list string :=
                   match fs with
                   | [] => []
                   | (k, JUndefined) :: rest => members rest
                   | (k, x) :: rest =>
                       (quoted (escapeString k) ++ ":" ++ stringify x)%string
                       :: members rest
                   end) fields)
          ++ "}"
  end.

End RefJSON.

(** ** The specification's reading of the ordering rule and of the body *)

(** Follows the specification's words, not the source: the file name
    contains the primary-source marker when letter case is ignored. *)
Definition spec_containsMarker (fileName : string) : bool :=
  includes (toLowerCase fileName) (toLowerCase PRIMARY_MARKER).

(** Follows the specification's words, not the source: primary entries
    first, then the others, each group in retrieval order.  An entry is a
    file name with the snippet it carries. *)
Definition spec_prioritise (entries : list (string * string)) : list string :=
  map snd (filter (fun e => spec_containsMarker (fst e)) entries)
  ++ map snd (filter (fun e => negb (spec_containsMarker (fst e))) entries).

(** Follows the specification's words, not the source: the parsed content
    carries a [collection_url] field, on itself or on an element when it
    is a sequence. *)
Definition spec_carriesCollectionUrl (parsed u : JSValue) : Prop :=
  u <> JUndefined
  /\ (getProp parsed "collection_url" = Normal u
      \/ exists items item,
           parsed = JArr items /\ In item items
           /\ getProp item "collection_url" = Normal u).

(** An element of a parsed sequence that is neither [null] nor
    [undefined]: reading its [collection_url] does not throw. *)
Definition readable (v : JSValue) : Prop := v <> JNull /\ v <> JUndefined.

(** The declared type of an element of [messages]: a [UIMessage] has an
    id, a role and a list of parts. *)
Definition isUIMessage (m : UIMessage) : bool :=
  match id m, role m, parts m with
  | Some _, Some _, Some _ => true
  | _, _, _ => false
  end.

(** The declared shape of the body: [{ messages: UIMessage[] }]. *)
Definition hasExpectedShape (req : Request) : bool :=
  match json req with
  | Throw _ => false
  | Normal body =>
      match body_messages body with
      | None => false
      | Some messages => forallb isUIMessage messages
      end
  end.

(** ** Sample inputs *)

Module Samples.

(** The opening line of the instruction template. *)
Definition prompt : string :=
  "You are The BBS Fitment Assistant, built for WheelPrice.".

Definition userMessage (ps : list UIPart) : UIMessage :=
  {| id := Some "msg-1"; role := Some "user"; parts := Some ps |}.

Definition requestOf (messages : list UIMessage) : Request :=
  {| json := Normal {| body_messages := Some messages |}; signal := 7 |}.

(** A search result whose content is the string [c] and that carries the
    file name [name]. *)
Definition resultFrom (name c : string) : SearchResult :=
  {| content := JStr c; metadata := JObj [("file_name", JStr name)] |}.

(** A search result without metadata whose content is the string [c]. *)
Definition resultOf (c : string) : SearchResult :=
  {| content := JStr c; metadata := JUndefined |}.

(** Services whose search answers [data] and whose generation calls go
    through. *)
Definition answering (data : list SearchResult) : Services :=
  {| vectorStores_search := fun _ _ => Normal data;
     streamText_throws := fun _ => None |}.

(** Services whose search call throws. *)
Definition searchDown : Services :=
  {| vectorStores_search := fun _ _ => Throw (ServiceError "vector store unavailable");
     streamText_throws := fun _ => None |}.

(** Services whose search answers [data] and whose generation calls all
    throw, as they do when the message list cannot be converted. *)
Definition rejecting (data : list SearchResult) : Services :=
  {| vectorStores_search := fun _ _ => Normal data;
     streamText_throws := fun _ => Some (TypeError "Unsupported role") |}.

(** The handler on the reference JSON functions and the sample template. *)
Definition run (services : Services) (req : Request) : M Response :=
  POST prompt RefJSON.parse RefJSON.stringify services req.

Definition otherJson : SearchResult := resultFrom "other.json" "OTHER".
Definition primaryJson : SearchResult := resultFrom "BBS_wheels.json" "PRIMARY".

(** [{"collection_url":<v>}] *)
Definition collectionObject (v : string) : string :=
  ("{" ++ RefJSON.quoted "collection_url" ++ ":" ++ v ++ "}")%string.

Definition lmUrl : string := "https://BBSwheels.com/collections/lm".

(** A result whose content is the text [[5,{"collection_url":<lmUrl>}]]. *)
Definition numberThenUrl : SearchResult :=
  resultOf ("[5," ++ collectionObject (RefJSON.quoted lmUrl) ++ "]").

(** A result whose content is the text [{"collection_url":""}]. *)
Definition emptyUrl : SearchResult :=
  resultOf (collectionObject (RefJSON.quoted EmptyString)).

(** A body whose first message is the empty object and whose last message
    is a user message with the text [hi]. *)
Definition malformedFirstMessage : Request :=
  requestOf [ {| id := None; role := None; parts := None |};
              userMessage [TextPart "hi"] ].

(** The request of the specification's example: one text part and one
    image attachment. *)
Definition findWheelsWithImageParts : list UIPart :=
  [TextPart "find wheels"; FilePart (Some "image/png") "data:image/png;base64,"].

Definition findWheelsWithImage : Request :=
  requestOf [userMessage findWheelsWithImageParts].

Definition findWheelsParts : list UIPart := [TextPart "find"; TextPart "wheels"].

Definition findWheels : Request := requestOf [userMessage findWheelsParts].

Definition imageParts : list UIPart :=
  [FilePart (Some "image/png") "data:image/png;base64,"].

Definition imageOnly : Request := requestOf [userMessage imageParts].

(** A request whose body is not valid JSON. *)
Definition notJson : Request :=
  {| json := Throw (SyntaxError "Unexpected token"); signal := 7 |}.

End Samples.

(** ** Predicates used to state further properties *)

(** [typeof v === "string"] *)
Definition isStringValue (v : JSValue) : bool :=
  match v with
  | JStr _ => true
  | _ => false
  end.

(** Every character of [s] satisfies [f]. *)
Fixpoint allChars (f : ascii -> bool) (s : string) : bool :=
  match s with
  | EmptyString => true
  | String c s' => f c && allChars f s'
  end.

(** The text [rest] that follows a match of the URL pattern is empty or
    starts with a character outside [[^\s)]]. *)
Definition endsMatch (rest : string) : bool :=
  match rest with
  | EmptyString => true
  | String c _ => negb (urlChar c)
  end.

Definition isSearchEvent (ev : Event) : bool :=
  match ev with
  | VectorStoreSearch _ _ => true
  | _ => false
  end.

Definition isGenerationEvent (ev : Event) : bool :=
  match ev with
  | StreamText _ => true
  | _ => false
  end.

Module MoreSamples.

Import Samples.

(** A result whose metadata carries a number where the file name is
    expected. *)
Definition numericFileName : SearchResult :=
  {| content := JStr "a"; metadata := JObj [("file_name", JNum 5)] |}.

(** A result whose content is the text [{"collection_url":<lmUrl>}]. *)
Definition lmCollection : SearchResult :=
  resultOf (collectionObject (RefJSON.quoted lmUrl)).

Definition evilText : string := "Order at https://BBSwheels.com/evil today".

Definition plainText : string := "No link here, see http://example.org/a.".

End MoreSamples.

(** The file name the handler reads off a result is a string, so that
    [toLowerCase] can be called on it. *)
Definition hasStringFileName (r : SearchResult) : bool :=
  match fileNameOf r with
  | Normal (JStr _) => true
  | _ => false
  end.

(** The log line about the secondary group, present when the group is
    not empty. *)
Definition secondaryCountLog (n : nat) : list Event :=
  if 0 <? n
  then [ConsoleLog ("Found " ++ ofNat n ++ " results from secondary sources")]
  else [].

(** No event of the list is a call to the vector store. *)
Definition noSearch (t : list Event) : bool :=
  forallb (fun ev => negb (isSearchEvent ev)) t.

(** The number of generation calls attempted in a run. *)
Definition generationAttempts (t : list Event) : nat :=
  List.length (filter isGenerationEvent t).

(** * Properties *)

Import Samples.

(** ** Strings *)

Example toLowerCase_mixed : toLowerCase "BBS_Wheels.JSON" = "bbs_wheels.json".
Proof. reflexivity. Qed.

Example trim_both_ends : trim ("  find wheels " ++ LF) = "find wheels".
Proof. reflexivity. Qed.

Example join_three : join " " ["a"; "b"; "c"] = "a b c".
Proof. reflexivity. Qed.

Example textMatch_stops_at_paren :
  textMatch "see (https://BBSwheels.com/a) or http://x.y/z now"
  = ["https://BBSwheels.com/a"; "http://x.y/z"].
Proof. reflexivity. Qed.

Example textMatch_needs_a_body : textMatch "https:// http://) httpx://a" = [].
Proof. reflexivity. Qed.

Lemma toLowerChar_never_upper_B (c : ascii) : toLowerChar c <> "B"%char.
Proof.
  destruct c as [[] [] [] [] [] [] [] []]; vm_compute; discriminate.
Qed.

Lemma startsWith_cons (a b : ascii) (p s : string) :
  startsWith (String b s) (String a p)
  = if ascii_dec a b then startsWith s p else false.
Proof. reflexivity. Qed.

(** No lower-cased string starts with a text whose first letter is a
    capital B. *)
Lemma startsWith_toLowerCase_B (s rest : string) :
  startsWith (toLowerCase s) (String "B"%char rest) = false.
Proof.
  destruct s as [|c s']; [reflexivity|].
  change (toLowerCase (String c s')) with (String (toLowerChar c) (toLowerCase s')).
  rewrite startsWith_cons.
  destruct (ascii_dec "B"%char (toLowerChar c)) as [E|_]; [|reflexivity].
  exfalso. exact (toLowerChar_never_upper_B c (eq_sym E)).
Qed.

Lemma includes_toLowerCase_B (s rest : string) :
  includes (toLowerCase s) (String "B"%char rest) = false.
Proof.
  induction s as [|c s' IH].
  - reflexivity.
  - change (toLowerCase (String c s')) with (String (toLowerChar c) (toLowerCase s')).
    change (includes (String (toLowerChar c) (toLowerCase s')) (String "B"%char rest))
      with (startsWith (toLowerCase (String c s')) (String "B"%char rest)
            || includes (toLowerCase s') (String "B"%char rest)).
    now rewrite startsWith_toLowerCase_B, IH.
Qed.

Lemma startsWith_iff (s p : string) :
  startsWith s p = true <-> exists rest, s = (p ++ rest)%string.
Proof.
  revert s.
  induction p as [|a p' IH]; intros s.
  - destruct s; split; simpl; eauto.
  - destruct s as [|b s'].
    + split; [discriminate|]. intros [rest H]. discriminate.
    + rewrite startsWith_cons. destruct (ascii_dec a b) as [->|N].
      * rewrite IH. split; intros [rest H]; exists rest.
        -- now subst.
        -- simpl in H. congruence.
      * split; [discriminate|]. intros [rest H]. simpl in H. congruence.
Qed.

Lemma invalidUrlWarning_inj (u v : string) :
  invalidUrlWarning u = invalidUrlWarning v -> u = v.
Proof.
  unfold invalidUrlWarning. simpl. intros H. now inversion H.
Qed.

(** ** The audit *)

Lemma someValid_strings (url : string) (validUrls : list string) :
  someValid url (map JStr validUrls)
  = Normal (existsb (fun v => (toLowerCase v =? toLowerCase url)%string
                              || startsWith url v) validUrls).
Proof.
  induction validUrls as [|v rest IH]; simpl; [reflexivity|].
  destruct ((toLowerCase v =? toLowerCase url)%string || startsWith url v); simpl.
  - reflexivity.
  - exact IH.
Qed.

Lemma auditUrl_strings (validUrls : list string) (url : string) :
  auditUrl (map JStr validUrls) url
  = (if warnsAbout validUrls url
     then [ConsoleWarn (invalidUrlWarning url)] else [],
     Normal tt).
Proof.
  unfold auditUrl, warnsAbout.
  destruct (includes url BBS_DOMAIN); simpl; [|reflexivity].
  rewrite someValid_strings. simpl.
  now destruct (existsb _ validUrls).
Qed.

Lemma forEach_auditUrl_strings (validUrls : list string) (urls : list string) :
  forEach (auditUrl (map JStr validUrls)) urls
  = (map (fun u => ConsoleWarn (invalidUrlWarning u))
         (filter (warnsAbout validUrls) urls),
     Normal tt).
Proof.
  induction urls as [|u rest IH]; simpl; [reflexivity|].
  rewrite auditUrl_strings, IH. simpl.
  now destruct (warnsAbout validUrls u).
Qed.

Lemma validateAndFilterUrls_strings (text : string) (validUrls : list string) :
  validateAndFilterUrls text (map JStr validUrls)
  = (map (fun u => ConsoleWarn (invalidUrlWarning u))
         (filter (warnsAbout validUrls) (textMatch text)),
     Normal text).
Proof.
  unfold validateAndFilterUrls.
  rewrite forEach_auditUrl_strings. simpl. now rewrite app_nil_r.
Qed.

Lemma bind_trace_in {A B} (m : M A) (k : A -> M B) (ev : Event) :
  In ev (trace (bind m k)) ->
  In ev (trace m) \/ exists a, result m = Normal a /\ In ev (trace (k a)).
Proof.
  destruct m as [t [a|e]]; simpl.
  - destruct (k a) as [t' r] eqn:E. simpl. intros H.
    apply in_app_or in H. destruct H as [H|H]; [now left|].
    right. exists a. rewrite E. now split.
  - now left.
Qed.

Lemma forEach_trace_in {A} (f : A -> M unit) (xs : list A) (ev : Event) :
  In ev (trace (forEach f xs)) -> exists x, In x xs /\ In ev (trace (f x)).
Proof.
  induction xs as [|x rest IH]; simpl; [contradiction|].
  intros H. apply bind_trace_in in H. destruct H as [H|[_ [_ H]]].
  - exists x. auto.
  - destruct (IH H) as [y [Hy Hev]]. exists y. auto.
Qed.

(** Whatever the trusted set holds, the only thing the audit of one URL
    can log is the warning about that URL, and only when the URL contains
    the domain as written. *)
Lemma auditUrl_trace_in (validUrls : list JSValue) (url : string) (ev : Event) :
  In ev (trace (auditUrl validUrls url)) ->
  ev = ConsoleWarn (invalidUrlWarning url) /\ includes url BBS_DOMAIN = true.
Proof.
  unfold auditUrl. destruct (includes url BBS_DOMAIN); [|contradiction].
  destruct (someValid url validUrls) as [[|]|e]; simpl; intuition.
Qed.

Lemma validateAndFilterUrls_trace_in (text : string) (validUrls : list JSValue)
  (ev : Event) :
  In ev (trace (validateAndFilterUrls text validUrls)) ->
  exists url, In url (textMatch text)
              /\ ev = ConsoleWarn (invalidUrlWarning url)
              /\ includes url BBS_DOMAIN = true.
Proof.
  unfold validateAndFilterUrls. intros H.
  apply bind_trace_in in H. destruct H as [H|[_ [_ H]]]; [|contradiction].
  apply forEach_trace_in in H. destruct H as [url [Hin Hev]].
  exists url. split; [exact Hin|]. now apply auditUrl_trace_in in Hev.
Qed.

(** Even with a trusted set that is ill-typed at run time, a value that
    the audit returns is the text it was given. *)
Lemma validateAndFilterUrls_result (text : string) (validUrls : list JSValue)
  (r : string) :
  result (validateAndFilterUrls text validUrls) = Normal r -> r = text.
Proof.
  unfold validateAndFilterUrls.
  destruct (forEach (auditUrl validUrls) (textMatch text)) as [t [[]|e]]; simpl.
  - congruence.
  - discriminate.
Qed.

(** C2. The URL audit leaves the generated text alone.  For every text
    and every trusted set (a list of strings), [validateAndFilterUrls]
    returns normally and its value is the text it was given; the
    [onFinish] callback, which is all that consumes this value and which
    yields nothing to the response stream, therefore completes without
    ever logging that the response was altered.  On a text that contains [https://BBSwheels.com/evil] and a
    trusted set with no matching entry, the text comes back whole and the
    mismatch warning is logged. *)
Theorem C2_audit_never_modifies_text :
  (forall (text : string) (validUrls : list string),
      result (validateAndFilterUrls text (map JStr validUrls)) = Normal text
      /\ result (onFinishCallback (map JStr validUrls) text) = Normal tt
      /\ trace (onFinishCallback (map JStr validUrls) text)
         = trace (validateAndFilterUrls text (map JStr validUrls)))
  /\ validateAndFilterUrls "Order at https://BBSwheels.com/evil today" [JStr lmUrl]
     = ([ConsoleWarn "Filtered out invalid BBS URL: https://BBSwheels.com/evil"],
        Normal "Order at https://BBSwheels.com/evil today").
Proof.
  split.
  - intros text validUrls. unfold onFinishCallback.
    rewrite validateAndFilterUrls_strings. simpl.
    rewrite String.eqb_refl. simpl. now rewrite app_nil_r.
  - reflexivity.
Qed.

Lemma existsb_matches_iff (validUrls : list string) (url : string) :
  existsb (fun v => (toLowerCase v =? toLowerCase url)%string || startsWith url v)
          validUrls = true
  <-> exists v, In v validUrls
                /\ (toLowerCase v = toLowerCase url
                    \/ exists rest, url = (v ++ rest)%string).
Proof.
  rewrite existsb_exists. split; intros [v [Hin H]]; exists v; (split; [exact Hin|]).
  - apply orb_true_iff in H. destruct H as [H|H].
    + left. now apply String.eqb_eq.
    + right. now apply startsWith_iff.
  - apply orb_true_iff. destruct H as [H|H].
    + left. now apply String.eqb_eq.
    + right. now apply startsWith_iff.
Qed.

(** C7. In the post-generation audit, take any match [url] of the URL
    pattern in the generated text that contains the designated domain.
    The warning about [url] is logged if and only if no entry of the
    trusted set equals [url] up to letter case and no entry is a prefix of
    [url]. *)
Theorem C7_warning_iff_not_trusted
  (text : string) (validUrls : list string) (url : string) :
  In url (textMatch text) ->
  includes url BBS_DOMAIN = true ->
  (In (ConsoleWarn (invalidUrlWarning url))
      (trace (validateAndFilterUrls text (map JStr validUrls)))
   <-> ~ exists v, In v validUrls
                   /\ (toLowerCase v = toLowerCase url
                       \/ exists rest, url = (v ++ rest)%string)).
Proof.
  intros Hfound Hdomain.
  rewrite validateAndFilterUrls_strings. simpl.
  rewrite <- existsb_matches_iff, in_map_iff. split.
  - intros [u [Hu Hin]]. apply filter_In in Hin. destruct Hin as [_ Hw].
    assert (E : invalidUrlWarning u = invalidUrlWarning url) by congruence.
    apply invalidUrlWarning_inj in E. subst u.
    unfold warnsAbout in Hw. apply andb_true_iff in Hw. destruct Hw as [_ Hw].
    intros Hex. rewrite Hex in Hw. discriminate.
  - intros Hno. exists url. split; [reflexivity|].
    apply filter_In. split; [exact Hfound|].
    unfold warnsAbout. rewrite Hdomain. simpl.
    now destruct (existsb _ validUrls).
Qed.

Lemma C7_warning_iff_not_trusted_witness :
  In "https://BBSwheels.com/evil" (textMatch "Order at https://BBSwheels.com/evil today")
  /\ includes "https://BBSwheels.com/evil" BBS_DOMAIN = true
  /\ (In (ConsoleWarn (invalidUrlWarning "https://BBSwheels.com/evil"))
         (trace (validateAndFilterUrls "Order at https://BBSwheels.com/evil today"
                                       (map JStr [lmUrl])))
      <-> ~ exists v, In v [lmUrl]
                      /\ (toLowerCase v = toLowerCase "https://BBSwheels.com/evil"
                          \/ exists rest,
                               "https://BBSwheels.com/evil" = (v ++ rest)%string)).
Proof.
  split; [left; reflexivity|]. split; [reflexivity|].
  apply (C7_warning_iff_not_trusted
           "Order at https://BBSwheels.com/evil today" [lmUrl]
           "https://BBSwheels.com/evil").
  - left. reflexivity.
  - reflexivity.
Defined.

(** C10. The audit looks for the domain exactly as written.  A match of
    the URL pattern that contains the domain in some other letter casing
    only (it contains [bbswheels.com] when case is ignored, but not
    [BBSwheels.com] itself) is passed over without the trusted set being
    consulted: its audit does nothing, whatever the set holds, and no
    warning about it is ever logged. *)
Theorem C10_domain_detection_is_case_sensitive (url : string) :
  includes (toLowerCase url) (toLowerCase BBS_DOMAIN) = true ->
  includes url BBS_DOMAIN = false ->
  (forall validUrls : list JSValue, auditUrl validUrls url = ret tt)
  /\ (forall (text : string) (validUrls : list JSValue),
         ~ In (ConsoleWarn (invalidUrlWarning url))
              (trace (validateAndFilterUrls text validUrls))).
Proof.
  intros _ Hexact. split.
  - intros validUrls. unfold auditUrl. now rewrite Hexact.
  - intros text validUrls Hin.
    apply validateAndFilterUrls_trace_in in Hin.
    destruct Hin as [u [_ [Hev Hdom]]].
    assert (E : invalidUrlWarning url = invalidUrlWarning u) by congruence.
    apply invalidUrlWarning_inj in E. subst u.
    rewrite Hexact in Hdom. discriminate.
Qed.

Lemma C10_domain_detection_is_case_sensitive_witness :
  includes (toLowerCase "https://bbswheels.com/evil") (toLowerCase BBS_DOMAIN) = true
  /\ includes "https://bbswheels.com/evil" BBS_DOMAIN = false
  /\ (forall validUrls : list JSValue,
         auditUrl validUrls "https://bbswheels.com/evil" = ret tt)
  /\ (forall (text : string) (validUrls : list JSValue),
         ~ In (ConsoleWarn (invalidUrlWarning "https://bbswheels.com/evil"))
              (trace (validateAndFilterUrls text validUrls))).
Proof.
  split; [reflexivity|]. split; [reflexivity|].
  apply (C10_domain_detection_is_case_sensitive "https://bbswheels.com/evil");
    reflexivity.
Defined.

Example audit_lower_case_domain_not_flagged :
  validateAndFilterUrls "Order at https://bbswheels.com/evil today" []
  = ([], Normal "Order at https://bbswheels.com/evil today").
Proof. reflexivity. Qed.

(** ** Ordering of the snippets *)

Section Ordering.

Variable JSON_stringify : JSValue -> string.

(** The test that is meant to recognise the primary source compares a
    lower-cased file name with a marker that starts with capital letters;
    it never succeeds. *)
Lemma isPrimarySource_never (r : SearchResult) (b : bool) :
  isPrimarySource r = Normal b -> b = false.
Proof.
  unfold isPrimarySource, andThen.
  destruct (fileNameOf r) as [v|e]; [|discriminate].
  destruct v; simpl; try discriminate.
  intros H. injection H as <-.
  apply includes_toLowerCase_B.
Qed.

Lemma partitionResults_all_secondary (data : list SearchResult)
  (BBSWheelsData otherData : list string) (groups : list string * list string) :
  partitionResults JSON_stringify data BBSWheelsData otherData = Normal groups ->
  groups = (BBSWheelsData, otherData ++ map (contentString JSON_stringify) data).
Proof.
  revert otherData.
  induction data as [|r rest IH]; intros otherData; simpl.
  - rewrite app_nil_r. congruence.
  - unfold andThen.
    destruct (isPrimarySource r) as [b|e] eqn:E; [|discriminate].
    apply isPrimarySource_never in E. subst b.
    intros H. apply IH in H. now rewrite <- app_assoc in H.
Qed.

End Ordering.

(** C1, evaluated on the code.  The specification's rule puts the snippet
    of [BBS_wheels.json] before that of [other.json].  The handler, given
    the two results in the order [other.json], [BBS_wheels.json], files
    both under the secondary sources and assembles the context with the
    snippet of [other.json] first. *)
Theorem C1_primary_snippet_not_placed_first :
  spec_prioritise [("other.json", "OTHER"); ("BBS_wheels.json", "PRIMARY")]
  = ["PRIMARY"; "OTHER"]
  /\ partitionResults RefJSON.stringify [otherJson; primaryJson] [] []
     = Normal ([], ["OTHER"; "PRIMARY"])
  /\ retrieveContext RefJSON.parse RefJSON.stringify
       (answering [otherJson; primaryJson]) "find wheels"
     = ([VectorStoreSearch "find wheels" 10;
         ConsoleLog "Found 2 results from secondary sources"],
        Normal (("OTHER" ++ CONTEXT_SEPARATOR ++ "PRIMARY")%string, [])).
Proof. repeat split. Qed.

(** ** The trusted URL set *)

Section TrustedUrls.

Variable JSON_parse : string -> option JSValue.
Variable JSON_stringify : JSValue -> string.

Lemma recordUrl_extends (v : JSValue) (urls : list JSValue) :
  exists added, fst (recordUrl v urls) = urls ++ added.
Proof.
  unfold recordUrl. destruct (getProp v "collection_url") as [u|e]; simpl.
  - destruct (truthy u); [exists [u]|exists []]; now rewrite ?app_nil_r.
  - exists []. now rewrite app_nil_r.
Qed.

Lemma recordItems_extends (items : list JSValue) (urls : list JSValue) :
  exists added, fst (recordItems items urls) = urls ++ added.
Proof.
  revert urls. induction items as [|item rest IH]; intros urls; simpl.
  - exists []. now rewrite app_nil_r.
  - destruct (recordUrl_extends item urls) as [a Ha].
    destruct (recordUrl item urls) as [urls' [[]|e]]; simpl in *; subst urls'.
    + destruct (IH (urls ++ a)) as [b Hb]. exists (a ++ b).
      now rewrite Hb, app_assoc.
    + now exists a.
Qed.

Lemma recordFromContent_extends (c : string) (urls : list JSValue) :
  exists added, fst (recordFromContent JSON_parse c urls) = urls ++ added.
Proof.
  unfold recordFromContent.
  destruct (JSON_parse c) as [parsed|].
  - destruct (recordUrl_extends parsed urls) as [a Ha].
    destruct (recordUrl parsed urls) as [urls' [[]|e]]; simpl in *; subst urls'.
    + destruct parsed; simpl; try (now exists a).
      destruct (recordItems_extends items (urls ++ a)) as [b Hb].
      exists (a ++ b). now rewrite Hb, app_assoc.
    + now exists a.
  - exists []. simpl. now rewrite app_nil_r.
Qed.

Lemma extractCollectionUrls_keeps (data : list SearchResult)
  (urls : list JSValue) (u : JSValue) :
  In u urls ->
  In u (fold_left (recordFromResult JSON_parse JSON_stringify) data urls).
Proof.
  revert urls. induction data as [|r rest IH]; intros urls Hin; simpl.
  - exact Hin.
  - apply IH. unfold recordFromResult.
    destruct (recordFromContent_extends (contentString JSON_stringify r) urls)
      as [a Ha].
    rewrite Ha. apply in_or_app. now left.
Qed.

Lemma extractCollectionUrls_records (data : list SearchResult)
  (r : SearchResult) (u : JSValue) :
  In r data ->
  (forall urls, In u (recordFromResult JSON_parse JSON_stringify urls r)) ->
  forall urls,
    In u (fold_left (recordFromResult JSON_parse JSON_stringify) data urls).
Proof.
  intros Hin Hrec. induction data as [|r' rest IH]; intros urls; simpl.
  - contradiction.
  - destruct Hin as [->|Hin].
    + apply extractCollectionUrls_keeps, Hrec.
    + now apply IH.
Qed.

Lemma recordUrl_readable (v : JSValue) (urls : list JSValue) :
  readable v -> snd (recordUrl v urls) = Normal tt.
Proof.
  intros [H1 H2]. unfold recordUrl. destruct v; simpl; congruence.
Qed.

Lemma recordItems_reaches (before after : list JSValue) (item u : JSValue)
  (urls : list JSValue) :
  Forall readable before ->
  getProp item "collection_url" = Normal u ->
  truthy u = true ->
  In u (fst (recordItems (before ++ item :: after) urls)).
Proof.
  intros Hbefore Hget Htruthy. revert urls.
  induction Hbefore as [|x before Hx _ IH]; intros urls; simpl.
  - unfold recordUrl. rewrite Hget, Htruthy.
    destruct (recordItems_extends after (urls ++ [u])) as [a Ha].
    rewrite Ha. apply in_or_app. left. apply in_or_app. right. now left.
  - pose proof (recordUrl_readable urls Hx) as Hok.
    destruct (recordUrl x urls) as [urls' [[]|e]]; simpl in Hok; [|discriminate].
    apply IH.
Qed.

(** C6, as the handler implements it.  Take a retrieval result whose
    content, coerced to a string, parses.  A truthy [collection_url] (a
    non-empty string, say) found on the parsed value itself, or on an
    element of the parsed sequence that comes after readable elements
    only, is in the trusted URL set.  A result whose content does not
    parse leaves the set as it was; the extraction is a total function,
    so nothing is thrown. *)
Theorem C6_truthy_collection_urls_are_trusted
  (data : list SearchResult) (r : SearchResult) (parsed u : JSValue) :
  In r data ->
  JSON_parse (contentString JSON_stringify r) = Some parsed ->
  truthy u = true ->
  (getProp parsed "collection_url" = Normal u
   \/ exists before item after,
        parsed = JArr (before ++ item :: after)
        /\ Forall readable before
        /\ getProp item "collection_url" = Normal u) ->
  In u (extractCollectionUrls JSON_parse JSON_stringify data)
  /\ (forall (skipped : SearchResult) (urls : list JSValue),
         JSON_parse (contentString JSON_stringify skipped) = None ->
         recordFromResult JSON_parse JSON_stringify urls skipped = urls).
Proof.
  intros Hin Hparse Htruthy Hcarries. split.
  - unfold extractCollectionUrls.
    apply extractCollectionUrls_records with (r := r); [exact Hin|].
    intros urls. unfold recordFromResult, recordFromContent. rewrite Hparse.
    destruct Hcarries as [Hget|[before [item [after [-> [Hbefore Hget]]]]]].
    + unfold recordUrl. rewrite Hget, Htruthy.
      destruct parsed; simpl; try (apply in_or_app; right; now left).
      simpl in Hget. injection Hget as <-. discriminate.
    + simpl. now apply recordItems_reaches.
  - intros skipped urls Hfail.
    unfold recordFromResult, recordFromContent. now rewrite Hfail.
Qed.

Lemma extractCollectionUrls_skips_unparsable
  (before after : list SearchResult) (r : SearchResult) :
  JSON_parse (contentString JSON_stringify r) = None ->
  extractCollectionUrls JSON_parse JSON_stringify (before ++ r :: after)
  = extractCollectionUrls JSON_parse JSON_stringify (before ++ after).
Proof.
  intros Hfail. unfold extractCollectionUrls.
  rewrite !fold_left_app. simpl.
  unfold recordFromResult at 2. unfold recordFromContent. now rewrite Hfail.
Qed.

End TrustedUrls.

Lemma C6_truthy_collection_urls_are_trusted_witness :
  In numberThenUrl [resultOf "plain text"; numberThenUrl]
  /\ RefJSON.parse (contentString RefJSON.stringify numberThenUrl)
     = Some (JArr ([JNum 5] ++ [JObj [("collection_url", JStr lmUrl)]]))
  /\ truthy (JStr lmUrl) = true
  /\ In (JStr lmUrl)
        (extractCollectionUrls RefJSON.parse RefJSON.stringify
           [resultOf "plain text"; numberThenUrl])
  /\ (forall (skipped : SearchResult) (urls : list JSValue),
         RefJSON.parse (contentString RefJSON.stringify skipped) = None ->
         recordFromResult RefJSON.parse RefJSON.stringify urls skipped = urls).
Proof.
  split; [right; left; reflexivity|]. split; [reflexivity|]. split; [reflexivity|].
  apply (@C6_truthy_collection_urls_are_trusted RefJSON.parse RefJSON.stringify
           [resultOf "plain text"; numberThenUrl] numberThenUrl
           (JArr ([JNum 5] ++ [JObj [("collection_url", JStr lmUrl)]]))
           (JStr lmUrl)).
  - right. left. reflexivity.
  - reflexivity.
  - reflexivity.
  - right. exists [JNum 5], (JObj [("collection_url", JStr lmUrl)]), [].
    split; [reflexivity|]. split; [|reflexivity].
    constructor; [|constructor]. split; discriminate.
Defined.

(** C6 as the specification states it fails on the code.  The content
    [{"collection_url":""}] parses and carries the field, but its value
    is falsy and the guard [if (parsed.collection_url)] keeps it out of
    the trusted URL set, which stays empty. *)
Lemma C6_counterexample :
  ~ (forall (data : list SearchResult) (r : SearchResult) (parsed u : JSValue),
        In r data ->
        RefJSON.parse (contentString RefJSON.stringify r) = Some parsed ->
        spec_carriesCollectionUrl parsed u ->
        In u (extractCollectionUrls RefJSON.parse RefJSON.stringify data)).
Proof.
  intros H.
  assert (Hin : In (JStr EmptyString)
                   (extractCollectionUrls RefJSON.parse RefJSON.stringify [emptyUrl])).
  { apply (H [emptyUrl] emptyUrl (JObj [("collection_url", JStr EmptyString)])).
    - left. reflexivity.
    - reflexivity.
    - split; [discriminate|]. left. reflexivity. }
  vm_compute in Hin. exact Hin.
Qed.

(** A [null] element ends the scan of a sequence: the URLs carried by the
    elements after it are not collected. *)
Example extractCollectionUrls_null_element :
  let c := ("[null," ++ collectionObject (RefJSON.quoted lmUrl) ++ "]")%string in
  RefJSON.parse c = Some (JArr [JNull; JObj [("collection_url", JStr lmUrl)]])
  /\ extractCollectionUrls RefJSON.parse RefJSON.stringify [resultOf c] = [].
Proof. split; reflexivity. Qed.

(** ** The handler *)

Lemma bind_lift_Normal {A B} (a : A) (k : A -> M B) :
  bind (lift (Normal a)) k = k a.
Proof. unfold bind, lift. now destruct (k a). Qed.

(** [join] is the standard library's [String.concat]. *)
Lemma join_concat (sep : string) (xs : list string) :
  join sep xs = String.concat sep xs.
Proof.
  induction xs as [|x rest IH]; [reflexivity|].
  destruct rest as [|y rest']; [reflexivity|].
  change (join sep (x :: y :: rest'))
    with (x ++ sep ++ join sep (y :: rest'))%string.
  rewrite IH. reflexivity.
Qed.

Lemma append_empty_r (s : string) : (s ++ EmptyString)%string = s.
Proof. induction s as [|c s IH]; simpl; [reflexivity|now rewrite IH]. Qed.

Lemma includes_own_head (c : ascii) (m : string) :
  includes (String c m) (String c EmptyString) = true.
Proof.
  destruct m as [|c' m'];
    (change (includes (String c ?m) (String c EmptyString))
       with (startsWith (String c m) (String c EmptyString)
             || includes m (String c EmptyString)));
    cbv beta; rewrite startsWith_cons;
    (destruct (ascii_dec c c) as [_|N]; [reflexivity|contradiction]).
Qed.

(** A text without a line feed is found in [s] followed by two line feeds
    only where it is found in [s]. *)
Lemma startsWith_before_line_feeds (marker s : string) :
  includes marker LF = false ->
  marker <> EmptyString ->
  startsWith (s ++ LF ++ LF) marker = startsWith s marker.
Proof.
  revert s. induction marker as [|a marker' IH]; intros s Hno Hne.
  - contradiction.
  - destruct s as [|b s'].
    + simpl (EmptyString ++ LF ++ LF)%string. unfold LF at 1.
      rewrite startsWith_cons.
      destruct (ascii_dec a (ascii_of_nat 10)) as [->|N]; [|reflexivity].
      unfold LF in Hno. now rewrite includes_own_head in Hno.
    + simpl ((String b s') ++ LF ++ LF)%string. rewrite !startsWith_cons.
      destruct (ascii_dec a b) as [_|_]; [|reflexivity].
      destruct marker' as [|a' m''].
      * now destruct s'.
      * apply IH; [|discriminate].
        change (includes (String a (String a' m'')) LF)
          with (startsWith (String a (String a' m'')) LF
                || includes (String a' m'') LF) in Hno.
        now apply orb_false_iff in Hno.
Qed.

Lemma includes_before_line_feeds (marker s : string) :
  includes marker LF = false ->
  marker <> EmptyString ->
  includes (s ++ LF ++ LF) marker = includes s marker.
Proof.
  intros Hno Hne. induction s as [|c s' IH].
  - destruct marker as [|a m]; [contradiction|].
    assert (Ha : a <> ascii_of_nat 10).
    { intros ->. unfold LF in Hno. now rewrite includes_own_head in Hno. }
    simpl. unfold startsWith, LF. simpl.
    destruct (ascii_dec a (ascii_of_nat 10)); [contradiction|].
    reflexivity.
  - change (includes (String c s' ++ LF ++ LF) marker)
      with (startsWith (String c s' ++ LF ++ LF) marker
            || includes (s' ++ LF ++ LF) marker).
    change (includes (String c s') marker)
      with (startsWith (String c s') marker || includes s' marker).
    now rewrite IH, startsWith_before_line_feeds.
Qed.

Section Post.

Variable BBS_SYSTEM_PROMPT : string.
Variable JSON_parse : string -> option JSValue.
Variable JSON_stringify : JSValue -> string.
Variable services : Services.

Local Abbreviation post :=
  (POST BBS_SYSTEM_PROMPT JSON_parse JSON_stringify services).
Local Abbreviation retrieve :=
  (retrieveContext JSON_parse JSON_stringify services).

(** The three ways a request that reaches the [try] can run: the primary
    generation call goes through; it throws and the fallback call is
    made; or a step before it throws and the fallback call is made. *)
Lemma POST_cases (req : Request) (ms : list UIMessage) (lastMessage : UIMessage)
  (lastParts : list UIPart) :
  json req = Normal {| body_messages := Some ms |} ->
  lastElement ms = Some lastMessage ->
  parts lastMessage = Some lastParts ->
  let fb := fallbackCall BBS_SYSTEM_PROMPT req ms in
  let handled e :=
    [ConsoleError "Error querying OpenAI Vector Store:" e; StreamText fb] in
  (exists t ctx,
      retrieve (extractUserQuery lastParts) = (t, Normal ctx)
      /\ let pc := primaryCall BBS_SYSTEM_PROMPT req ms (detectImages lastParts)
                               (fst ctx) (snd ctx) in
         (streamText_throws services pc = None
          /\ post req = (t ++ [StreamText pc], Normal (UIMessageStreamResponse pc)))
         \/ (exists e,
                streamText_throws services pc = Some e
                /\ post req = ((t ++ [StreamText pc]) ++ handled e,
                               result (streamText services fb))))
  \/ (exists t e,
         retrieve (extractUserQuery lastParts) = (t, Throw e)
         /\ post req = (t ++ handled e, result (streamText services fb))).
Proof.
  intros Hjson Hlast Hparts fb handled.
  unfold POST. rewrite Hjson, bind_lift_Normal. simpl.
  rewrite Hlast, Hparts.
  unfold primaryPath, fallbackPath.
  destruct (retrieve (extractUserQuery lastParts)) as [t [ctx|e]] eqn:E.
  - left. exists t, ctx. split; [reflexivity|].
    unfold streamText at 1. simpl.
    destruct (streamText_throws services
                (primaryCall BBS_SYSTEM_PROMPT req ms (detectImages lastParts)
                   (fst ctx) (snd ctx))) as [e|] eqn:Ethrows.
    + right. exists e. split; [reflexivity|]. reflexivity.
    + left. split; reflexivity.
  - right. exists t, e. split; reflexivity.
Qed.

Lemma retrieve_trace_in (q : string) (ev : Event) :
  In ev (trace (retrieve q)) ->
  ev = VectorStoreSearch q 10 \/ exists msg, ev = ConsoleLog msg.
Proof.
  unfold retrieveContext.
  destruct (truthyString (trim q)); [|contradiction].
  intros H. apply bind_trace_in in H. destruct H as [H|[data [_ H]]].
  - simpl in H. destruct H as [<-|[]]. now left.
  - apply bind_trace_in in H. destruct H as [H|[groups [_ H]]]; [contradiction|].
    apply bind_trace_in in H. destruct H as [H|[_ [_ H]]]; [|contradiction].
    right. unfold logGroupSizes in H.
    apply bind_trace_in in H. destruct H as [H|[_ [_ H]]].
    + destruct (0 <? Datatypes.length (fst groups)); simpl in H; [|contradiction].
      destruct H as [<-|[]]. eauto.
    + destruct (0 <? Datatypes.length (snd groups)); simpl in H; [|contradiction].
      destruct H as [<-|[]]. eauto.
Qed.

Lemma retrieve_empty_query (q : string) :
  trim q = EmptyString -> retrieve q = ret (EmptyString, []).
Proof. intros H. unfold retrieveContext. now rewrite H. Qed.

Lemma retrieve_search_throws (q : string) (e : JSError) :
  truthyString (trim q) = true ->
  vectorStores_search services q 10 = Throw e ->
  retrieve q = ([VectorStoreSearch q 10], Throw e).
Proof.
  intros Hq Hs. unfold retrieveContext, search. rewrite Hq, Hs.
  reflexivity.
Qed.

(** When the search answers and the grouping does not throw, the set
    handed to the audit is the one extracted from the answer. *)
Lemma retrieve_trusted_set (q : string) (data : list SearchResult)
  (t : list Event) (ctx : string * list JSValue) :
  truthyString (trim q) = true ->
  vectorStores_search services q 10 = Normal data ->
  retrieve q = (t, Normal ctx) ->
  snd ctx = extractCollectionUrls JSON_parse JSON_stringify data.
Proof.
  intros Hq Hs. unfold retrieveContext, search. rewrite Hq, Hs.
  unfold bind at 1.
  destruct (partitionResults JSON_stringify data [] []) as [groups|e]; simpl.
  - destruct (logGroupSizes groups) as [t' [[]|e']]; simpl.
    + intros H. now inversion H.
    + discriminate.
  - discriminate.
Qed.

(** Every event of a run that reaches the [try]. *)
Lemma POST_trace_in (req : Request) (ms : list UIMessage) (lastMessage : UIMessage)
  (lastParts : list UIPart) (ev : Event) :
  json req = Normal {| body_messages := Some ms |} ->
  lastElement ms = Some lastMessage ->
  parts lastMessage = Some lastParts ->
  In ev (trace (post req)) ->
  In ev (trace (retrieve (extractUserQuery lastParts)))
  \/ (exists ctx, result (retrieve (extractUserQuery lastParts)) = Normal ctx
                  /\ ev = StreamText (primaryCall BBS_SYSTEM_PROMPT req ms
                                        (detectImages lastParts) (fst ctx) (snd ctx)))
  \/ (exists e, ev = ConsoleError "Error querying OpenAI Vector Store:" e)
  \/ ev = StreamText (fallbackCall BBS_SYSTEM_PROMPT req ms).
Proof.
  intros Hjson Hlast Hparts Hin.
  destruct (POST_cases req Hjson Hlast Hparts)
    as [[t [ctx [Hr [[_ Hp]|[e [_ Hp]]]]]]|[t [e [Hr Hp]]]];
    rewrite Hp in Hin; rewrite Hr; simpl in *.
  - apply in_app_or in Hin. destruct Hin as [Hin|[<-|[]]]; [now left|].
    right. left. now exists ctx.
  - apply in_app_or in Hin. destruct Hin as [Hin|[<-|[<-|[]]]].
    + apply in_app_or in Hin. destruct Hin as [Hin|[<-|[]]]; [now left|].
      right. left. now exists ctx.
    + right. right. left. now exists e.
    + now repeat right.
  - apply in_app_or in Hin. destruct Hin as [Hin|[<-|[<-|[]]]].
    + now left.
    + right. right. left. now exists e.
    + now repeat right.
Qed.


(** C9.  A body that parses but whose [messages] array is empty makes the
    handler throw while reading the parts of the missing last message.
    That happens before the [try]: nothing is logged, neither service is
    called, the fallback is not run, and the request fails. *)
Theorem C9_empty_messages_fail_before_try (sig : AbortSignal) :
  post {| json := Normal {| body_messages := Some [] |}; signal := sig |}
  = ([], Throw (TypeError "Cannot read properties of undefined (reading parts)")).
Proof. reflexivity. Qed.

(** C8, as the handler implements it.  A request fails before the [try]
    when its body is not valid JSON, or its [messages] property is
    missing or [null], or is an empty array, or is an array whose last
    element has no [parts] array.  The trace is then empty (no retrieval
    call, no generation call, no fallback) and the handler throws. *)
Theorem C8_unreadable_body_fails_before_any_call (req : Request) :
  ((exists e, json req = Throw e)
   \/ exists body,
        json req = Normal body
        /\ (body_messages body = None
            \/ body_messages body = Some []
            \/ exists ms m,
                 body_messages body = Some ms
                 /\ lastElement ms = Some m /\ parts m = None)) ->
  trace (post req) = [] /\ exists e, result (post req) = Throw e.
Proof.
  unfold POST.
  intros [[e H]|[body [H [Hm|[Hm|[ms [m [Hm [Hlast Hparts]]]]]]]]]; rewrite H.
  - simpl. eauto.
  - rewrite bind_lift_Normal, Hm. simpl. eauto.
  - rewrite bind_lift_Normal, Hm. simpl. eauto.
  - rewrite bind_lift_Normal, Hm, Hlast, Hparts. simpl. eauto.
Qed.

(** C3, as the handler implements it.  Let the request reach the [try].
    If the retrieval call throws, or any later step of the retrieval block
    does, the handler logs the error and makes the fallback generation
    call, and its outcome is the outcome of that call: the response, when
    the call goes through.  The fallback call carries the instruction
    template alone as system message, the model [gpt-4o], and the
    temperature and abort signal that the primary call would carry. *)
Theorem C3_fallback_after_failure_inside_try
  (req : Request) (ms : list UIMessage) (lastMessage : UIMessage)
  (lastParts : list UIPart) :
  json req = Normal {| body_messages := Some ms |} ->
  lastElement ms = Some lastMessage ->
  parts lastMessage = Some lastParts ->
  let userQuery := extractUserQuery lastParts in
  let fb := fallbackCall BBS_SYSTEM_PROMPT req ms in
  (forall e,
      truthyString (trim userQuery) = true ->
      vectorStores_search services userQuery 10 = Throw e ->
      post req
      = ([VectorStoreSearch userQuery 10;
          ConsoleError "Error querying OpenAI Vector Store:" e;
          StreamText fb],
         match streamText_throws services fb with
         | Some e' => Throw e'
         | None => Normal (UIMessageStreamResponse fb)
         end))
  /\ (forall t e,
         retrieve userQuery = (t, Throw e) ->
         post req
         = (t ++ [ConsoleError "Error querying OpenAI Vector Store:" e;
                  StreamText fb],
            match streamText_throws services fb with
            | Some e' => Throw e'
            | None => Normal (UIMessageStreamResponse fb)
            end))
  /\ model fb = "gpt-4o"
  /\ messages fb = systemMessage BBS_SYSTEM_PROMPT :: ms
  /\ (forall hasImages contextText validCollectionUrls,
         let pc := primaryCall BBS_SYSTEM_PROMPT req ms hasImages contextText
                               validCollectionUrls in
         temperature fb = temperature pc /\ abortSignal fb = abortSignal pc)
  /\ temperature fb = 3 # 10
  /\ abortSignal fb = signal req.
Proof.
  intros Hjson Hlast Hparts userQuery fb.
  assert (Hblock : forall t e,
             retrieve userQuery = (t, Throw e) ->
             post req
             = (t ++ [ConsoleError "Error querying OpenAI Vector Store:" e;
                      StreamText fb],
                match streamText_throws services fb with
                | Some e' => Throw e'
                | None => Normal (UIMessageStreamResponse fb)
                end)).
  { intros t e Hr.
    destruct (POST_cases req Hjson Hlast Hparts)
      as [[t' [ctx [Hr' _]]]|[t' [e' [Hr' Hp]]]];
      fold userQuery in Hr'; rewrite Hr in Hr'.
    - discriminate.
    - injection Hr' as <- <-. exact Hp. }
  split; [|split; [exact Hblock|repeat split]].
  intros e Hq Hs.
  exact (Hblock _ _ (retrieve_search_throws userQuery Hq Hs)).
Qed.

(** Let the request reach the [try].  Every retrieval call of the run
    has the texts of the parts tagged [text], joined by one space, as its
    query, and a limit of 10.  If the final message has no such part, no
    retrieval call is made and the system message of every generation
    call is the template followed by two line feeds, or the template
    alone: it holds a context marker only where the template does. *)
Lemma POST_search_query_and_system_text
  (req : Request) (ms : list UIMessage) (lastMessage : UIMessage)
  (lastParts : list UIPart) :
  json req = Normal {| body_messages := Some ms |} ->
  lastElement ms = Some lastMessage ->
  parts lastMessage = Some lastParts ->
  let textParts := filter (fun p => (partType p =? "text")%string) lastParts in
  (forall q n,
      In (VectorStoreSearch q n) (trace (post req)) ->
      q = String.concat " " (map (fun p => orEmpty (partText p)) textParts)
      /\ n = 10)
  /\ (textParts = [] ->
      (forall q n, ~ In (VectorStoreSearch q n) (trace (post req)))
      /\ forall call,
          In (StreamText call) (trace (post req)) ->
          exists text,
            messages call = systemMessage text :: ms
            /\ (text = (BBS_SYSTEM_PROMPT ++ LF ++ LF)%string
                \/ text = BBS_SYSTEM_PROMPT)
            /\ includes text CONTEXT_BEGIN = includes BBS_SYSTEM_PROMPT CONTEXT_BEGIN
            /\ includes text CONTEXT_END = includes BBS_SYSTEM_PROMPT CONTEXT_END).
Proof.
  intros Hjson Hlast Hparts textParts.
  assert (Hquery : extractUserQuery lastParts
                   = String.concat " " (map (fun p => orEmpty (partText p)) textParts)).
  { unfold extractUserQuery. rewrite map_map. apply join_concat. }
  split.
  - intros q n Hin.
    apply (POST_trace_in req _ Hjson Hlast Hparts) in Hin.
    destruct Hin as [Hin|[[ctx [_ Hev]]|[[e Hev]|Hev]]]; try discriminate.
    apply retrieve_trace_in in Hin. destruct Hin as [Hev|[msg Hev]]; [|discriminate].
    injection Hev as -> ->. now rewrite Hquery.
  - intros Hnone.
    assert (Hempty : extractUserQuery lastParts = EmptyString).
    { rewrite Hquery, Hnone. reflexivity. }
    assert (Hr : retrieve (extractUserQuery lastParts) = ret (EmptyString, [])).
    { apply retrieve_empty_query. now rewrite Hempty. }
    split.
    + intros q n Hin.
      apply (POST_trace_in req _ Hjson Hlast Hparts) in Hin.
      rewrite Hr in Hin.
      destruct Hin as [[]|[[ctx [_ Hev]]|[[e Hev]|Hev]]]; discriminate.
    + intros call Hin.
      apply (POST_trace_in req _ Hjson Hlast Hparts) in Hin.
      rewrite Hr in Hin.
      destruct Hin as [[]|[[ctx [Hctx Hev]]|[[e Hev]|Hev]]]; try discriminate.
      * injection Hctx as <-. injection Hev as ->.
        exists (BBS_SYSTEM_PROMPT ++ LF ++ LF)%string. simpl.
        assert (Hsys : systemPromptWithContext BBS_SYSTEM_PROMPT EmptyString
                       = (BBS_SYSTEM_PROMPT ++ LF ++ LF)%string).
        { unfold systemPromptWithContext, contextBlock.
          cbn [truthyString]. now rewrite append_empty_r. }
        rewrite Hsys.
        split; [reflexivity|]. split; [now left|].
        split; apply includes_before_line_feeds; (reflexivity || discriminate).
      * injection Hev as ->. exists BBS_SYSTEM_PROMPT. simpl. auto.
Qed.

Lemma detectImages_iff (lastParts : list UIPart) :
  detectImages lastParts = true
  <-> exists mt url,
        In (FilePart (Some mt) url) lastParts
        /\ exists rest, mt = ("image/" ++ rest)%string.
Proof.
  unfold detectImages. rewrite existsb_exists. split.
  - intros [p [Hin H]]. apply andb_true_iff in H. destruct H as [_ H].
    destruct p as [t|[mt|] url|t]; simpl in H; try discriminate.
    exists mt, url. split; [exact Hin|]. now apply startsWith_iff.
  - intros [mt [url [Hin H]]]. exists (FilePart (Some mt) url).
    split; [exact Hin|]. simpl. now apply startsWith_iff.
Qed.

(** C5.  Let the request reach the [try].  The visual flag is true
    exactly when the final message has a file part whose media type
    starts with [image/].  When the retrieval block completes, the
    generation call that follows it is the primary one, with [gpt-4o] if
    the flag is true and [gpt-4o-mini] otherwise.  When the flag is true,
    whether retrieval succeeds or throws, a generation call is made and
    every generation call of the run uses [gpt-4o].  A final message
    with the text [find wheels] and one image attachment has the flag
    set. *)
Theorem C5_visual_flag_selects_model
  (req : Request) (ms : list UIMessage) (lastMessage : UIMessage)
  (lastParts : list UIPart) :
  json req = Normal {| body_messages := Some ms |} ->
  lastElement ms = Some lastMessage ->
  parts lastMessage = Some lastParts ->
  (detectImages lastParts = true
   <-> exists mt url,
         In (FilePart (Some mt) url) lastParts
         /\ exists rest, mt = ("image/" ++ rest)%string)
  /\ (forall t ctx,
         retrieve (extractUserQuery lastParts) = (t, Normal ctx) ->
         exists pc rest,
           trace (post req) = t ++ StreamText pc :: rest
           /\ onFinish pc = Some (snd ctx)
           /\ model pc = if detectImages lastParts then "gpt-4o" else "gpt-4o-mini")
  /\ (detectImages lastParts = true ->
      (exists call, In (StreamText call) (trace (post req)))
      /\ forall call, In (StreamText call) (trace (post req)) -> model call = "gpt-4o")
  /\ (forall url,
         detectImages [TextPart "find wheels"; FilePart (Some "image/png") url] = true).
Proof.
  intros Hjson Hlast Hparts.
  split; [apply detectImages_iff|]. split; [|split; [|reflexivity]].
  - intros t ctx Hr.
    destruct (POST_cases req Hjson Hlast Hparts)
      as [[t' [ctx' [Hr' [[_ Hp]|[e [_ Hp]]]]]]|[t' [e' [Hr' _]]]];
      rewrite Hr in Hr'; try discriminate; injection Hr' as <- <-; rewrite Hp.
    + eexists; exists []. split; [reflexivity|]. split; [reflexivity|].
      simpl. now destruct (detectImages lastParts).
    + eexists; eexists. split; [simpl; rewrite <- app_assoc; reflexivity|].
      split; [reflexivity|]. simpl. now destruct (detectImages lastParts).
  - intros Hflag. split.
    + exists (match result (retrieve (extractUserQuery lastParts)) with
              | Normal ctx => primaryCall BBS_SYSTEM_PROMPT req ms
                                (detectImages lastParts) (fst ctx) (snd ctx)
              | Throw _ => fallbackCall BBS_SYSTEM_PROMPT req ms
              end).
      destruct (POST_cases req Hjson Hlast Hparts)
        as [[t [ctx [Hr [[_ Hp]|[e [_ Hp]]]]]]|[t [e [Hr Hp]]]];
        rewrite Hp, Hr; simpl.
      * apply in_or_app. right. now left.
      * apply in_or_app. left. apply in_or_app. right. now left.
      * apply in_or_app. right. right. now left.
    + intros call Hin.
      apply (POST_trace_in req _ Hjson Hlast Hparts) in Hin.
      destruct Hin as [Hin|[[ctx [_ Hev]]|[[e Hev]|Hev]]]; try discriminate.
      * apply retrieve_trace_in in Hin. destruct Hin as [Hev|[msg Hev]]; discriminate.
      * injection Hev as ->. simpl. now rewrite Hflag.
      * injection Hev as ->. reflexivity.
Qed.

End Post.

(** ** The claims on sample requests *)

Lemma C8_unreadable_body_fails_before_any_call_witness :
  (exists e, json notJson = Throw e)
  /\ trace (run (answering [otherJson]) notJson) = []
  /\ exists e, result (run (answering [otherJson]) notJson) = Throw e.
Proof.
  split.
  - exists (SyntaxError "Unexpected token"). reflexivity.
  - apply (C8_unreadable_body_fails_before_any_call
             prompt RefJSON.parse RefJSON.stringify (answering [otherJson]) notJson).
    left. exists (SyntaxError "Unexpected token"). reflexivity.
Defined.

(** C8 as the specification states it fails on the code.  The body
    [{"messages":[{}, m]}], where [m] is a user message with the text
    [hi], does not have the declared shape, since its first message has
    no id, role or parts.  The handler reads the last message only and
    issues the retrieval call for [hi]; the request fails afterwards, when
    both generation calls reject the message list. *)
Lemma C8_counterexample :
  ~ (forall (services : Services) (req : Request),
        hasExpectedShape req = false ->
        forall q n, ~ In (VectorStoreSearch q n) (trace (run services req))).
Proof.
  intros H.
  apply (H (rejecting []) malformedFirstMessage eq_refl "hi" 10).
  left. reflexivity.
Qed.

Example run_malformed_first_message :
  hasExpectedShape malformedFirstMessage = false
  /\ exists pc fb,
      run (rejecting []) malformedFirstMessage
      = ([VectorStoreSearch "hi" 10;
          StreamText pc;
          ConsoleError "Error querying OpenAI Vector Store:"
                       (TypeError "Unsupported role");
          StreamText fb],
         Throw (TypeError "Unsupported role")).
Proof. split; [reflexivity|]. eexists; eexists; reflexivity. Qed.

Lemma C3_fallback_after_failure_inside_try_witness :
  json findWheels = Normal {| body_messages := Some [userMessage findWheelsParts] |}
  /\ lastElement [userMessage findWheelsParts] = Some (userMessage findWheelsParts)
  /\ parts (userMessage findWheelsParts) = Some findWheelsParts
  /\ truthyString (trim (extractUserQuery findWheelsParts)) = true
  /\ vectorStores_search searchDown (extractUserQuery findWheelsParts) 10
     = Throw (ServiceError "vector store unavailable")
  /\ run searchDown findWheels
     = ([VectorStoreSearch "find wheels" 10;
         ConsoleError "Error querying OpenAI Vector Store:"
                      (ServiceError "vector store unavailable");
         StreamText (fallbackCall prompt findWheels [userMessage findWheelsParts])],
        Normal (UIMessageStreamResponse
                  (fallbackCall prompt findWheels [userMessage findWheelsParts]))).
Proof.
  repeat (split; [reflexivity|]).
  destruct (C3_fallback_after_failure_inside_try
              prompt RefJSON.parse RefJSON.stringify searchDown findWheels
              (lastMessage := userMessage findWheelsParts)
              eq_refl eq_refl eq_refl) as [Hsearch _].
  exact (Hsearch (ServiceError "vector store unavailable") eq_refl eq_refl).
Defined.

(** C3 as the specification states it fails on the code.  With a body
    that parses and generation calls that always go through, the claim
    promises a response whatever throws before the primary generation
    call.  For the body [{"messages":[]}] reading the parts of the last
    message throws before the [try], and the handler fails. *)
Lemma C3_counterexample :
  ~ (forall (services : Services) (req : Request) (body : Body),
        json req = Normal body ->
        (forall call, streamText_throws services call = None) ->
        exists call,
          result (run services req) = Normal (UIMessageStreamResponse call)).
Proof.
  intros H.
  destruct (H searchDown (requestOf []) {| body_messages := Some [] |}
              eq_refl (fun _ => eq_refl)) as [call Hcall].
  discriminate Hcall.
Qed.

Lemma C5_visual_flag_selects_model_witness :
  json findWheelsWithImage
  = Normal {| body_messages := Some [userMessage findWheelsWithImageParts] |}
  /\ lastElement [userMessage findWheelsWithImageParts]
     = Some (userMessage findWheelsWithImageParts)
  /\ parts (userMessage findWheelsWithImageParts) = Some findWheelsWithImageParts
  /\ detectImages findWheelsWithImageParts = true
  /\ forall services call,
       In (StreamText call) (trace (run services findWheelsWithImage)) ->
       model call = "gpt-4o".
Proof.
  repeat (split; [reflexivity|]).
  intros services.
  destruct (C5_visual_flag_selects_model
              prompt RefJSON.parse RefJSON.stringify services findWheelsWithImage
              (lastMessage := userMessage findWheelsWithImageParts)
              eq_refl eq_refl eq_refl) as [_ [_ [Hvisual _]]].
  exact (proj2 (Hvisual eq_refl)).
Defined.

Example run_image_only_skips_retrieval :
  trace (run searchDown imageOnly)
  = [StreamText (primaryCall prompt imageOnly [userMessage imageParts] true
                             EmptyString [])]
  /\ contextBlock EmptyString = EmptyString.
Proof. split; reflexivity. Qed.

Example run_non_string_file_name_falls_back :
  trace (run (answering [{| content := JStr "a";
                            metadata := JObj [("file_name", JNum 5)] |}])
             findWheels)
  = [VectorStoreSearch "find wheels" 10;
     ConsoleError "Error querying OpenAI Vector Store:"
                  (TypeError "fileName.toLowerCase is not a function");
     StreamText (fallbackCall prompt findWheels [userMessage findWheelsParts])].
Proof. reflexivity. Qed.

Example run_collects_trusted_urls :
  exists call rest,
    trace (run (answering [numberThenUrl]) findWheels)
    = VectorStoreSearch "find wheels" 10 :: ConsoleLog rest :: [StreamText call]
    /\ onFinish call = Some [JStr lmUrl]
    /\ model call = "gpt-4o-mini".
Proof. eexists; eexists. repeat split. Qed.

(** * Further properties of the code *)

Import MoreSamples.

(** ** The URL pattern *)

Lemma stripPrefix_Some (p s r : string) :
  stripPrefix p s = Some r -> s = (p ++ r)%string.
Proof.
  revert s. induction p as [|a p' IH]; intros s; simpl.
  - congruence.
  - destruct s as [|b s']; [discriminate|].
    destruct (Ascii.eqb a b) eqn:E; [|discriminate].
    apply Ascii.eqb_eq in E. subst b. intros H. now rewrite (IH _ H).
Qed.

Lemma takeWhile_split (f : ascii -> bool) (s : string) :
  exists rest,
    s = (takeWhile f s ++ rest)%string
    /\ allChars f (takeWhile f s) = true
    /\ match rest with
       | EmptyString => True
       | String c _ => f c = false
       end.
Proof.
  induction s as [|c s' [rest [Hs [Hall Hend]]]]; simpl.
  - exists EmptyString. auto.
  - destruct (f c) eqn:E; simpl.
    + exists rest. rewrite E, Hall. split; [now rewrite <- Hs|auto].
    + exists (String c s'). auto.
Qed.

Lemma matchTail_Some (s t : string) :
  matchTail s = Some t ->
  exists body rest,
    t = ("://" ++ body)%string /\ s = (t ++ rest)%string
    /\ body <> EmptyString /\ allChars urlChar body = true
    /\ endsMatch rest = true.
Proof.
  unfold matchTail.
  destruct (stripPrefix "://" s) as [r|] eqn:E; [|discriminate].
  apply stripPrefix_Some in E.
  destruct (takeWhile_split urlChar r) as [rest [Hr [Hall Hend]]].
  destruct (takeWhile urlChar r) as [|c body'] eqn:Eb; [discriminate|].
  intros H. injection H as <-.
  exists (String c body'), rest.
  split; [reflexivity|]. split; [now rewrite E, Hr|].
  split; [discriminate|]. split; [exact Hall|].
  destruct rest; simpl; [reflexivity|now rewrite Hend].
Qed.

Lemma matchAt_Some (s m : string) :
  matchAt s = Some m ->
  exists body rest,
    (m = ("http://" ++ body)%string \/ m = ("https://" ++ body)%string)
    /\ s = (m ++ rest)%string
    /\ body <> EmptyString /\ allChars urlChar body = true
    /\ endsMatch rest = true.
Proof.
  unfold matchAt.
  destruct (stripPrefix "http" s) as [r|] eqn:E; [|discriminate].
  apply stripPrefix_Some in E.
  assert (Hplain : option_map (append "http") (matchTail r) = Some m ->
                   exists body rest,
                     (m = ("http://" ++ body)%string \/ m = ("https://" ++ body)%string)
                     /\ s = (m ++ rest)%string
                     /\ body <> EmptyString /\ allChars urlChar body = true
                     /\ endsMatch rest = true).
  { destruct (matchTail r) as [t|] eqn:Et; [|discriminate].
    apply matchTail_Some in Et.
    destruct Et as [body [rest [-> [Hr [Hne [Hall Hend]]]]]].
    intros H. injection H as <-. exists body, rest.
    split; [now left|]. split; [|auto]. rewrite E, Hr. reflexivity. }
  destruct r as [|c r']; [exact Hplain|].
  destruct (Ascii.eqb c "s"%char) eqn:Ec; [|exact Hplain].
  apply Ascii.eqb_eq in Ec. subst c.
  destruct (matchTail r') as [t|] eqn:Et; [|exact Hplain].
  apply matchTail_Some in Et.
  destruct Et as [body [rest [-> [Hr [Hne [Hall Hend]]]]]].
  simpl option_map. intros H. injection H as <-. exists body, rest.
  split; [now right|]. split; [|auto]. rewrite E, Hr. reflexivity.
Qed.

Lemma matchAll_In (s : string) (skip : nat) (m : string) :
  In m (matchAll s skip) ->
  exists before from, s = (before ++ from)%string /\ matchAt from = Some m.
Proof.
  revert skip. induction s as [|c s' IH]; intros skip; simpl; [contradiction|].
  assert (Hrec : forall k, In m (matchAll s' k) ->
                 exists before from,
                   String c s' = (before ++ from)%string /\ matchAt from = Some m).
  { intros k H. destruct (IH _ H) as [before [from [-> Hm]]].
    exists (String c before), from. auto. }
  destruct skip as [|k]; [|apply Hrec].
  destruct (matchAt (String c s')) as [m'|] eqn:E; [|apply Hrec].
  intros [<-|H]; [|exact (Hrec _ H)].
  exists EmptyString, (String c s'). auto.
Qed.

Lemma includes_app_l (before s sub : string) :
  includes s sub = true -> includes (before ++ s) sub = true.
Proof.
  intros H. induction before as [|c before' IH]; [exact H|].
  change (includes (String c before' ++ s) sub)
    with (startsWith (String c (before' ++ s)) sub || includes (before' ++ s) sub).
  rewrite IH. apply orb_true_r.
Qed.

Lemma includes_prefix (s sub : string) :
  startsWith s sub = true -> includes s sub = true.
Proof.
  intros H. destruct s as [|c s'].
  - change (includes EmptyString sub) with (startsWith EmptyString sub || false).
    now rewrite H.
  - change (includes (String c s') sub)
      with (startsWith (String c s') sub || includes s' sub).
    now rewrite H.
Qed.

(** X1.  Every match of the URL pattern in a text is [http://] or
    [https://] followed by at least one character, none of which is white
    space or a closing parenthesis.  It stands in the text, and it runs up
    to the end of the text or to the next white space or closing
    parenthesis. *)
Theorem textMatch_shape (text m : string) :
  In m (textMatch text) ->
  exists body before rest,
    (m = ("http://" ++ body)%string \/ m = ("https://" ++ body)%string)
    /\ body <> EmptyString
    /\ allChars urlChar body = true
    /\ text = (before ++ m ++ rest)%string
    /\ endsMatch rest = true
    /\ includes text m = true.
Proof.
  intros Hin. apply matchAll_In in Hin.
  destruct Hin as [before [from [-> Hm]]].
  apply matchAt_Some in Hm.
  destruct Hm as [body [rest [Hshape [-> [Hne [Hall Hend]]]]]].
  exists body, before, rest. repeat (split; [assumption || reflexivity|]).
  apply includes_app_l, includes_prefix, startsWith_iff. now exists rest.
Qed.

Lemma textMatch_shape_witness :
  In "https://BBSwheels.com/evil" (textMatch evilText)
  /\ exists body before rest,
       ("https://BBSwheels.com/evil" = ("http://" ++ body)%string
        \/ "https://BBSwheels.com/evil" = ("https://" ++ body)%string)
       /\ body <> EmptyString
       /\ allChars urlChar body = true
       /\ evilText = (before ++ "https://BBSwheels.com/evil" ++ rest)%string
       /\ endsMatch rest = true
       /\ includes evilText "https://BBSwheels.com/evil" = true.
Proof.
  split; [left; reflexivity|].
  apply (textMatch_shape evilText "https://BBSwheels.com/evil").
  left. reflexivity.
Defined.

(** X2.  A text in which the characters [http] never occur has no match
    of the URL pattern, so the audit finds nothing to check. *)
Theorem textMatch_without_http (text : string) :
  includes text "http" = false -> textMatch text = [].
Proof.
  intros Hno.
  destruct (textMatch text) as [|m l] eqn:E; [reflexivity|exfalso].
  assert (Hin : In m (textMatch text)) by (rewrite E; now left).
  apply matchAll_In in Hin. destruct Hin as [before [from [Htext Hm]]].
  unfold matchAt in Hm.
  destruct (stripPrefix "http" from) as [r|] eqn:Es; [|discriminate].
  apply stripPrefix_Some in Es.
  assert (Hyes : includes text "http" = true).
  { rewrite Htext. apply includes_app_l, includes_prefix, startsWith_iff.
    now exists r. }
  congruence.
Qed.

Lemma textMatch_without_http_witness :
  includes "Call the dealer about BBS LM wheels" "http" = false
  /\ textMatch "Call the dealer about BBS LM wheels" = [].
Proof.
  split; [reflexivity|].
  apply (textMatch_without_http "Call the dealer about BBS LM wheels").
  reflexivity.
Defined.

(** ** The audit on arbitrary trusted sets *)

Lemma forEach_all_ret {A} (f : A -> M unit) (xs : list A) :
  (forall x, In x xs -> f x = ret tt) -> forEach f xs = ret tt.
Proof.
  induction xs as [|x rest IH]; intros H; simpl; [reflexivity|].
  rewrite (H x (or_introl eq_refl)). simpl.
  rewrite IH; [reflexivity|]. intros y Hy. apply H. now right.
Qed.

Lemma forEach_throws {A} (f : A -> M unit) (xs : list A) (e : JSError) :
  result (forEach f xs) = Throw e ->
  exists x, In x xs /\ result (f x) = Throw e.
Proof.
  induction xs as [|x rest IH]; simpl; [discriminate|].
  destruct (f x) as [t [[]|e']] eqn:E; simpl.
  - destruct (forEach f rest) as [t' r] eqn:Er. simpl in *. intros H.
    destruct (IH H) as [y [Hy Hr]]. exists y. auto.
  - intros H. exists x. rewrite E. auto.
Qed.

Lemma someValid_throws (url : string) (validUrls : list JSValue) (e : JSError) :
  someValid url validUrls = Throw e ->
  e = TypeError "validUrl.toLowerCase is not a function"
  /\ exists v, In v validUrls /\ isStringValue v = false.
Proof.
  induction validUrls as [|v rest IH]; simpl; [discriminate|].
  destruct v; simpl;
    try (intros H; injection H as <-; split; [reflexivity|];
         eexists; split; [left; reflexivity|reflexivity]).
  destruct ((toLowerCase s =? toLowerCase url)%string || startsWith url s);
    [discriminate|].
  intros H. destruct (IH H) as [He [v [Hv Hs]]].
  split; [exact He|]. exists v. auto.
Qed.

(** X3.  When no match of the URL pattern in the text contains the domain
    as written, the audit logs nothing and returns the text, whatever the
    trusted set holds, even values that are not strings. *)
Theorem audit_silent_without_domain_urls (text : string) (validUrls : list JSValue) :
  (forall url, In url (textMatch text) -> includes url BBS_DOMAIN = false) ->
  validateAndFilterUrls text validUrls = ([], Normal text).
Proof.
  intros Hno. unfold validateAndFilterUrls.
  rewrite forEach_all_ret; [reflexivity|].
  intros url Hin. unfold auditUrl. now rewrite (Hno url Hin).
Qed.

Lemma audit_silent_without_domain_urls_witness :
  (forall url, In url (textMatch plainText) -> includes url BBS_DOMAIN = false)
  /\ validateAndFilterUrls plainText [JNum 5; JStr lmUrl] = ([], Normal plainText).
Proof.
  assert (H : forall url, In url (textMatch plainText) ->
                          includes url BBS_DOMAIN = false).
  { intros url [<-|[]]. reflexivity. }
  split; [exact H|].
  exact (audit_silent_without_domain_urls plainText [JNum 5; JStr lmUrl] H).
Defined.

(** X4.  The audit can throw for one reason only: the text holds a match
    containing the domain and the trusted set holds a value that is not a
    string, on which [toLowerCase] is not a function. *)
Theorem audit_throws_only_on_non_string_entry
  (text : string) (validUrls : list JSValue) (e : JSError) :
  result (validateAndFilterUrls text validUrls) = Throw e ->
  e = TypeError "validUrl.toLowerCase is not a function"
  /\ (exists v, In v validUrls /\ isStringValue v = false)
  /\ exists url, In url (textMatch text) /\ includes url BBS_DOMAIN = true.
Proof.
  unfold validateAndFilterUrls. intros H.
  destruct (forEach (auditUrl validUrls) (textMatch text)) as [t [[]|e']] eqn:E;
    simpl in H; [discriminate|]. injection H as ->.
  assert (Hr : result (forEach (auditUrl validUrls) (textMatch text)) = Throw e)
    by now rewrite E.
  apply forEach_throws in Hr. destruct Hr as [url [Hin Hr]].
  unfold auditUrl in Hr.
  destruct (includes url BBS_DOMAIN) eqn:Ed; [|discriminate].
  destruct (someValid url validUrls) as [[|]|e'] eqn:Es; simpl in Hr;
    try discriminate.
  injection Hr as ->. apply someValid_throws in Es. destruct Es as [He Hv].
  split; [exact He|]. split; [exact Hv|]. exists url. auto.
Qed.

Lemma audit_throws_only_on_non_string_entry_witness :
  result (validateAndFilterUrls evilText [JNum 5])
  = Throw (TypeError "validUrl.toLowerCase is not a function")
  /\ (exists v, In v [JNum 5] /\ isStringValue v = false)
  /\ exists url, In url (textMatch evilText) /\ includes url BBS_DOMAIN = true.
Proof.
  split; [reflexivity|].
  apply (@audit_throws_only_on_non_string_entry evilText [JNum 5]
           (TypeError "validUrl.toLowerCase is not a function") eq_refl).
Defined.

(** X5.  With a trusted set of strings, the audit logs one warning for
    each occurrence of a match that contains the domain and is matched by
    no entry, in the order of the text, and nothing else. *)
Theorem audit_warnings_follow_text_order (text : string) (validUrls : list string) :
  trace (validateAndFilterUrls text (map JStr validUrls))
  = map (fun url => ConsoleWarn (invalidUrlWarning url))
        (filter (fun url =>
                   includes url BBS_DOMAIN
                   && negb (existsb
                              (fun validUrl =>
                                 (toLowerCase validUrl =? toLowerCase url)%string
                                 || startsWith url validUrl)
                              validUrls))
                (textMatch text)).
Proof.
  unfold validateAndFilterUrls.
  rewrite forEach_auditUrl_strings. simpl. now rewrite app_nil_r.
Qed.

Example audit_repeats_warning_per_occurrence :
  trace (validateAndFilterUrls
           "https://BBSwheels.com/a https://BBSwheels.com/collections/lm/x https://BBSwheels.com/a"
           [JStr lmUrl])
  = [ConsoleWarn "Filtered out invalid BBS URL: https://BBSwheels.com/a";
     ConsoleWarn "Filtered out invalid BBS URL: https://BBSwheels.com/a"].
Proof. reflexivity. Qed.

(** ** What the trusted URL set holds *)

Section TrustedUrlsMore.

Variable JSON_parse : string -> option JSValue.
Variable JSON_stringify : JSValue -> string.

Lemma recordUrl_In (v u : JSValue) (urls : list JSValue) :
  In u (fst (recordUrl v urls)) ->
  In u urls \/ (getProp v "collection_url" = Normal u /\ truthy u = true).
Proof.
  unfold recordUrl. destruct (getProp v "collection_url") as [x|e]; simpl.
  - destruct (truthy x) eqn:E; [|now left].
    intros H. apply in_app_or in H. destruct H as [H|[<-|[]]]; auto.
  - now left.
Qed.

Lemma recordItems_In (items : list JSValue) (u : JSValue) (urls : list JSValue) :
  In u (fst (recordItems items urls)) ->
  In u urls
  \/ exists item, In item items
                  /\ getProp item "collection_url" = Normal u /\ truthy u = true.
Proof.
  revert urls. induction items as [|item rest IH]; intros urls; simpl.
  - now left.
  - pose proof (@recordUrl_In item u urls) as Hone.
    destruct (recordUrl item urls) as [urls' [[]|e]]; simpl in *.
    + intros H. destruct (IH _ H) as [H'|[x [Hx Hu]]].
      * destruct (Hone H') as [Hin|Hu]; [now left|].
        right. exists item. auto.
      * right. exists x. auto.
    + intros H. destruct (Hone H) as [Hin|Hu]; [now left|].
      right. exists item. auto.
Qed.

Lemma recordFromContent_In (c : string) (u : JSValue) (urls : list JSValue) :
  In u (fst (recordFromContent JSON_parse c urls)) ->
  In u urls
  \/ (truthy u = true
      /\ exists parsed,
           JSON_parse c = Some parsed
           /\ (getProp parsed "collection_url" = Normal u
               \/ exists items item,
                    parsed = JArr items /\ In item items
                    /\ getProp item "collection_url" = Normal u)).
Proof.
  unfold recordFromContent.
  destruct (JSON_parse c) as [parsed|]; [|now left].
  pose proof (@recordUrl_In parsed u urls) as Hself.
  destruct (recordUrl parsed urls) as [urls' [[]|e]]; simpl in *.
  - assert (Hdone : In u urls' ->
                    In u urls
                    \/ (truthy u = true
                        /\ exists parsed0,
                             Some parsed = Some parsed0
                             /\ (getProp parsed0 "collection_url" = Normal u
                                 \/ exists items item,
                                      parsed0 = JArr items /\ In item items
                                      /\ getProp item "collection_url" = Normal u))).
    { intros H. destruct (Hself H) as [Hin|[Hget Ht]]; [now left|].
      right. split; [exact Ht|]. exists parsed. auto. }
    destruct parsed; try exact Hdone.
    intros H. apply recordItems_In in H. destruct H as [H|[item [Hitem [Hget Ht]]]].
    + exact (Hdone H).
    + right. split; [exact Ht|]. exists (JArr items). split; [reflexivity|].
      right. exists items, item. auto.
  - intros H. destruct (Hself H) as [Hin|[Hget Ht]]; [now left|].
    right. split; [exact Ht|]. exists parsed. auto.
Qed.

(** X6.  The trusted URL set holds nothing but what the results carry:
    each of its values is truthy (so never the empty string, which every
    URL starts with) and is the [collection_url] of the parsed content of
    some result, or of an element of that content when it is a
    sequence. *)
Theorem trusted_urls_come_from_results (data : list SearchResult) (u : JSValue) :
  In u (extractCollectionUrls JSON_parse JSON_stringify data) ->
  truthy u = true
  /\ exists r parsed,
       In r data
       /\ JSON_parse (contentString JSON_stringify r) = Some parsed
       /\ (getProp parsed "collection_url" = Normal u
           \/ exists items item,
                parsed = JArr items /\ In item items
                /\ getProp item "collection_url" = Normal u).
Proof.
  unfold extractCollectionUrls.
  assert (Hgen : forall urls,
             In u (fold_left (recordFromResult JSON_parse JSON_stringify) data urls) ->
             In u urls
             \/ (truthy u = true
                 /\ exists r parsed,
                      In r data
                      /\ JSON_parse (contentString JSON_stringify r) = Some parsed
                      /\ (getProp parsed "collection_url" = Normal u
                          \/ exists items item,
                               parsed = JArr items /\ In item items
                               /\ getProp item "collection_url" = Normal u))).
  { induction data as [|r rest IH]; intros urls; simpl; [now left|].
    intros H. destruct (IH _ H) as [H'|[Ht [r' [parsed [Hr' Hrest]]]]].
    - unfold recordFromResult in H'. apply recordFromContent_In in H'.
      destruct H' as [Hin|[Ht [parsed [Hp Hc]]]]; [now left|].
      right. split; [exact Ht|]. exists r, parsed. auto.
    - right. split; [exact Ht|]. exists r', parsed. auto. }
  intros H. destruct (Hgen [] H) as [[]|Hok]. exact Hok.
Qed.

Lemma recordUrl_from_empty (v : JSValue) (urls : list JSValue) :
  recordUrl v urls = (urls ++ fst (recordUrl v []), snd (recordUrl v [])).
Proof.
  unfold recordUrl. destruct (getProp v "collection_url") as [u|e]; simpl.
  - destruct (truthy u); simpl; now rewrite ?app_nil_r.
  - now rewrite app_nil_r.
Qed.

Lemma recordItems_from_empty (items : list JSValue) (urls : list JSValue) :
  recordItems items urls
  = (urls ++ fst (recordItems items []), snd (recordItems items [])).
Proof.
  revert urls.
  assert (Hgen : forall urls base,
             recordItems items (base ++ urls)
             = (base ++ fst (recordItems items urls), snd (recordItems items urls))).
  { induction items as [|item rest IH]; intros urls base; simpl; [reflexivity|].
    rewrite (recordUrl_from_empty item (base ++ urls)).
    rewrite (recordUrl_from_empty item urls).
    destruct (recordUrl item []) as [added [[]|e]]; simpl.
    - rewrite <- app_assoc. apply IH.
    - now rewrite app_assoc. }
  intros urls. rewrite <- (app_nil_r urls) at 1. apply Hgen.
Qed.

Lemma recordFromResult_from_empty (r : SearchResult) (urls : list JSValue) :
  recordFromResult JSON_parse JSON_stringify urls r
  = urls ++ recordFromResult JSON_parse JSON_stringify [] r.
Proof.
  unfold recordFromResult, recordFromContent.
  destruct (JSON_parse (contentString JSON_stringify r)) as [parsed|]; simpl;
    [|now rewrite app_nil_r].
  rewrite (recordUrl_from_empty parsed urls).
  destruct (recordUrl parsed []) as [added [[]|e]]; simpl; [|reflexivity].
  destruct parsed; simpl; try reflexivity.
  rewrite (recordItems_from_empty items (urls ++ added)).
  rewrite (recordItems_from_empty items added).
  simpl. now rewrite app_assoc.
Qed.

Lemma fold_recordFromResult_from_empty (data : list SearchResult)
  (urls : list JSValue) :
  fold_left (recordFromResult JSON_parse JSON_stringify) data urls
  = urls ++ extractCollectionUrls JSON_parse JSON_stringify data.
Proof.
  unfold extractCollectionUrls. revert urls.
  induction data as [|r rest IH]; intros urls; simpl.
  - now rewrite app_nil_r.
  - rewrite (IH (recordFromResult JSON_parse JSON_stringify urls r)).
    rewrite (IH (recordFromResult JSON_parse JSON_stringify [] r)).
    rewrite (recordFromResult_from_empty r urls). now rewrite app_assoc.
Qed.

(** X7.  The trusted URL set is built result by result: the set of two
    result lists put end to end is the set of the first followed by the
    set of the second.  What one result contributes does not depend on
    the others, and the values keep the order of the results. *)
Theorem extractCollectionUrls_app (data1 data2 : list SearchResult) :
  extractCollectionUrls JSON_parse JSON_stringify (data1 ++ data2)
  = extractCollectionUrls JSON_parse JSON_stringify data1
    ++ extractCollectionUrls JSON_parse JSON_stringify data2.
Proof.
  unfold extractCollectionUrls at 1. rewrite fold_left_app.
  apply fold_recordFromResult_from_empty.
Qed.

End TrustedUrlsMore.

Lemma trusted_urls_come_from_results_witness :
  In (JStr lmUrl)
     (extractCollectionUrls RefJSON.parse RefJSON.stringify [emptyUrl; lmCollection])
  /\ truthy (JStr lmUrl) = true
  /\ exists r parsed,
       In r [emptyUrl; lmCollection]
       /\ RefJSON.parse (contentString RefJSON.stringify r) = Some parsed
       /\ (getProp parsed "collection_url" = Normal (JStr lmUrl)
           \/ exists items item,
                parsed = JArr items /\ In item items
                /\ getProp item "collection_url" = Normal (JStr lmUrl)).
Proof.
  split; [left; reflexivity|].
  apply (@trusted_urls_come_from_results RefJSON.parse RefJSON.stringify
           [emptyUrl; lmCollection] (JStr lmUrl)).
  left. reflexivity.
Defined.

(** ** The retrieval block *)

Section RetrievalMore.

Variable JSON_parse : string -> option JSValue.
Variable JSON_stringify : JSValue -> string.

(** Thanks to the [|| {}] default, reading the file name never throws. *)
Lemma fileNameOf_returns (r : SearchResult) : exists v, fileNameOf r = Normal v.
Proof.
  unfold fileNameOf, andThen.
  destruct (truthy (metadata r)) eqn:E.
  - destruct (metadata r) as [| |b|z|s|items|fields]; simpl in *; try discriminate;
      eauto.
    destruct (truthy (ownProperty "file_name" fields)); eauto.
    destruct (truthy (ownProperty "filename" fields)); eauto.
  - simpl. eauto.
Qed.

Lemma isPrimarySource_cases (r : SearchResult) :
  isPrimarySource r
  = if hasStringFileName r then Normal false
    else Throw (TypeError "fileName.toLowerCase is not a function").
Proof.
  unfold isPrimarySource, hasStringFileName, andThen.
  destruct (fileNameOf_returns r) as [v ->].
  destruct v; simpl; try reflexivity.
  f_equal. apply includes_toLowerCase_B.
Qed.

Lemma partitionResults_cases (data : list SearchResult)
  (BBSWheelsData otherData : list string) :
  partitionResults JSON_stringify data BBSWheelsData otherData
  = if forallb hasStringFileName data
    then Normal (BBSWheelsData,
                 otherData ++ map (contentString JSON_stringify) data)
    else Throw (TypeError "fileName.toLowerCase is not a function").
Proof.
  revert otherData. induction data as [|r rest IH]; intros otherData; simpl.
  - now rewrite app_nil_r.
  - rewrite isPrimarySource_cases. unfold andThen.
    destruct (hasStringFileName r); simpl; [|reflexivity].
    rewrite IH. now rewrite <- app_assoc.
Qed.

(** X8.  The grouping of the results either throws or files every result
    under the secondary sources.  It throws, with a [TypeError], exactly
    when some result carries a truthy file name that is not a string;
    otherwise the primary group is empty and the secondary group holds
    the content strings of all results in retrieval order. *)
Theorem partitionResults_outcome (data : list SearchResult) :
  partitionResults JSON_stringify data [] []
  = if forallb hasStringFileName data
    then Normal ([], map (contentString JSON_stringify) data)
    else Throw (TypeError "fileName.toLowerCase is not a function").
Proof. apply partitionResults_cases. Qed.

Variable services : Services.

(** X9.  When the query is not blank, the search answers and every file
    name read is a string, the retrieval block makes that one search
    call, logs the size of the secondary group only (the line about the
    primary source is never logged), and yields the content strings of
    all results joined in retrieval order, together with the trusted URLs
    extracted from them.  An empty answer yields the empty context. *)
Theorem retrieveContext_answered (userQuery : string) (data : list SearchResult) :
  truthyString (trim userQuery) = true ->
  vectorStores_search services userQuery 10 = Normal data ->
  forallb hasStringFileName data = true ->
  retrieveContext JSON_parse JSON_stringify services userQuery
  = (VectorStoreSearch userQuery 10 :: secondaryCountLog (List.length data),
     Normal (join CONTEXT_SEPARATOR (map (contentString JSON_stringify) data),
             extractCollectionUrls JSON_parse JSON_stringify data)).
Proof.
  intros Hq Hs Hnames. unfold retrieveContext, search. rewrite Hq, Hs.
  unfold bind at 1. rewrite partitionResults_cases, Hnames.
  unfold lift, bind at 1.
  unfold logGroupSizes, assembleContext, secondaryCountLog. simpl.
  rewrite length_map.
  destruct (0 <? Datatypes.length data); reflexivity.
Qed.

(** X10.  When the query is not blank and the search answers with a
    result whose file name is not a string, the retrieval block throws
    right after the search call: no snippet and no trusted URL of that
    answer is used. *)
Theorem retrieveContext_non_string_file_name
  (userQuery : string) (data : list SearchResult) :
  truthyString (trim userQuery) = true ->
  vectorStores_search services userQuery 10 = Normal data ->
  forallb hasStringFileName data = false ->
  retrieveContext JSON_parse JSON_stringify services userQuery
  = ([VectorStoreSearch userQuery 10],
     Throw (TypeError "fileName.toLowerCase is not a function")).
Proof.
  intros Hq Hs Hnames. unfold retrieveContext, search. rewrite Hq, Hs.
  unfold bind at 1. rewrite partitionResults_cases, Hnames. reflexivity.
Qed.

End RetrievalMore.

Lemma retrieveContext_answered_witness :
  truthyString (trim "find wheels") = true
  /\ vectorStores_search (answering [otherJson; numberThenUrl]) "find wheels" 10
     = Normal [otherJson; numberThenUrl]
  /\ forallb hasStringFileName [otherJson; numberThenUrl] = true
  /\ retrieveContext RefJSON.parse RefJSON.stringify
       (answering [otherJson; numberThenUrl]) "find wheels"
     = (VectorStoreSearch "find wheels" 10 :: secondaryCountLog 2,
        Normal (join CONTEXT_SEPARATOR
                     (map (contentString RefJSON.stringify) [otherJson; numberThenUrl]),
                extractCollectionUrls RefJSON.parse RefJSON.stringify
                  [otherJson; numberThenUrl])).
Proof.
  repeat (split; [reflexivity|]).
  apply (@retrieveContext_answered RefJSON.parse RefJSON.stringify
           (answering [otherJson; numberThenUrl]) "find wheels"
           [otherJson; numberThenUrl]); reflexivity.
Defined.

Lemma retrieveContext_non_string_file_name_witness :
  truthyString (trim "find wheels") = true
  /\ vectorStores_search (answering [lmCollection; numericFileName]) "find wheels" 10
     = Normal [lmCollection; numericFileName]
  /\ forallb hasStringFileName [lmCollection; numericFileName] = false
  /\ retrieveContext RefJSON.parse RefJSON.stringify
       (answering [lmCollection; numericFileName]) "find wheels"
     = ([VectorStoreSearch "find wheels" 10],
        Throw (TypeError "fileName.toLowerCase is not a function")).
Proof.
  repeat (split; [reflexivity|]).
  apply (@retrieveContext_non_string_file_name RefJSON.parse RefJSON.stringify
           (answering [lmCollection; numericFileName]) "find wheels"
           [lmCollection; numericFileName]); reflexivity.
Defined.

(** ** The handler, end to end *)

Section PostMore.

Variable BBS_SYSTEM_PROMPT : string.
Variable JSON_parse : string -> option JSValue.
Variable JSON_stringify : JSValue -> string.
Variable services : Services.

Local Abbreviation post :=
  (POST BBS_SYSTEM_PROMPT JSON_parse JSON_stringify services).
Local Abbreviation retrieve :=
  (retrieveContext JSON_parse JSON_stringify services).

Lemma logGroupSizes_quiet (groups : list string * list string) :
  noSearch (trace (logGroupSizes groups)) = true
  /\ generationAttempts (trace (logGroupSizes groups)) = 0
  /\ result (logGroupSizes groups) = Normal tt.
Proof.
  unfold logGroupSizes.
  destruct (0 <? Datatypes.length (fst groups));
    destruct (0 <? Datatypes.length (snd groups)); repeat split.
Qed.

(** The events of the retrieval block: the search call first, when the
    query is not blank, then log lines only. *)
Lemma retrieve_trace_shape (q : string) :
  generationAttempts (trace (retrieve q)) = 0
  /\ if truthyString (trim q)
     then exists logs, trace (retrieve q) = VectorStoreSearch q 10 :: logs
                       /\ noSearch logs = true
     else retrieve q = ret (EmptyString, []).
Proof.
  unfold retrieveContext, search.
  destruct (truthyString (trim q)); [|split; reflexivity].
  destruct (vectorStores_search services q 10) as [data|e]; simpl.
  - destruct (partitionResults JSON_stringify data [] []) as [groups|e]; simpl.
    + destruct (logGroupSizes_quiet groups) as [Hs [Hg Hr]].
      destruct (logGroupSizes groups) as [t r]. simpl in *. subst r. simpl.
      rewrite app_nil_r. split; [exact Hg|]. exists t. auto.
    + split; [reflexivity|]. exists []. auto.
  - split; [reflexivity|]. exists []. auto.
Qed.

Lemma noSearch_app (t1 t2 : list Event) :
  noSearch (t1 ++ t2) = noSearch t1 && noSearch t2.
Proof. apply forallb_app. Qed.

Lemma generationAttempts_app (t1 t2 : list Event) :
  generationAttempts (t1 ++ t2) = generationAttempts t1 + generationAttempts t2.
Proof. unfold generationAttempts. now rewrite filter_app, length_app. Qed.

(** What follows the retrieval block in the trace of a run that reaches
    the [try]. *)
Lemma POST_after_retrieval (req : Request) (ms : list UIMessage)
  (lastMessage : UIMessage) (lastParts : list UIPart) :
  json req = Normal {| body_messages := Some ms |} ->
  lastElement ms = Some lastMessage ->
  parts lastMessage = Some lastParts ->
  exists tail,
    trace (post req) = trace (retrieve (extractUserQuery lastParts)) ++ tail
    /\ noSearch tail = true
    /\ (generationAttempts tail = 1
        \/ (generationAttempts tail = 2
            /\ exists ctx e,
                 result (retrieve (extractUserQuery lastParts)) = Normal ctx
                 /\ streamText_throws services
                      (primaryCall BBS_SYSTEM_PROMPT req ms (detectImages lastParts)
                                   (fst ctx) (snd ctx)) = Some e)).
Proof.
  intros Hjson Hlast Hparts.
  destruct (@POST_cases BBS_SYSTEM_PROMPT JSON_parse JSON_stringify services
              req ms lastMessage lastParts Hjson Hlast Hparts)
    as [[t [ctx [Hr [[_ Hp]|[e [He Hp]]]]]]|[t [e [Hr Hp]]]];
    rewrite Hp, Hr; simpl.
  - eexists. split; [reflexivity|]. split; [reflexivity|]. now left.
  - eexists. split; [now rewrite <- app_assoc|]. split; [reflexivity|].
    right. split; [reflexivity|]. exists ctx, e. auto.
  - eexists. split; [reflexivity|]. split; [reflexivity|]. now left.
Qed.

(** X11.  A request that reaches the [try] makes one retrieval call when
    the joined text of its last message is not blank, and none
    otherwise.  The call comes first in the run, carries that text
    untrimmed with a limit of 10, and is never repeated, not even on the
    fallback path. *)
Theorem POST_retrieval_called_once_iff_query_not_blank
  (req : Request) (ms : list UIMessage) (lastMessage : UIMessage)
  (lastParts : list UIPart) :
  json req = Normal {| body_messages := Some ms |} ->
  lastElement ms = Some lastMessage ->
  parts lastMessage = Some lastParts ->
  let userQuery := extractUserQuery lastParts in
  if truthyString (trim userQuery)
  then exists rest,
         trace (post req) = VectorStoreSearch userQuery 10 :: rest
         /\ noSearch rest = true
  else noSearch (trace (post req)) = true.
Proof.
  intros Hjson Hlast Hparts userQuery.
  destruct (POST_after_retrieval req Hjson Hlast Hparts) as [tail [Ht [Hns _]]].
  fold userQuery in Ht.
  destruct (retrieve_trace_shape userQuery) as [_ Hshape].
  destruct (truthyString (trim userQuery)).
  - destruct Hshape as [logs [Hlogs Hquiet]].
    exists (logs ++ tail). rewrite Ht, Hlogs. split; [reflexivity|].
    now rewrite noSearch_app, Hquiet, Hns.
  - rewrite Ht, Hshape. exact Hns.
Qed.

Lemma POST_attempts_one_or_two
  (req : Request) (ms : list UIMessage) (lastMessage : UIMessage)
  (lastParts : list UIPart) :
  json req = Normal {| body_messages := Some ms |} ->
  lastElement ms = Some lastMessage ->
  parts lastMessage = Some lastParts ->
  generationAttempts (trace (post req)) = 1
  \/ (generationAttempts (trace (post req)) = 2
      /\ exists ctx e,
           result (retrieve (extractUserQuery lastParts)) = Normal ctx
           /\ streamText_throws services
                (primaryCall BBS_SYSTEM_PROMPT req ms (detectImages lastParts)
                             (fst ctx) (snd ctx)) = Some e).
Proof.
  intros Hjson Hlast Hparts.
  destruct (POST_after_retrieval req Hjson Hlast Hparts) as [tail [Ht [_ Hg]]].
  destruct (retrieve_trace_shape (extractUserQuery lastParts)) as [Hzero _].
  rewrite Ht, generationAttempts_app, Hzero. exact Hg.
Qed.

(** X12.  A request that reaches the [try] attempts one generation call,
    or two; two only when the retrieval block completed and the primary
    generation call itself threw. *)
Theorem POST_generation_attempts
  (req : Request) (ms : list UIMessage) (lastMessage : UIMessage)
  (lastParts : list UIPart) :
  json req = Normal {| body_messages := Some ms |} ->
  lastElement ms = Some lastMessage ->
  parts lastMessage = Some lastParts ->
  generationAttempts (trace (post req)) = 1
  \/ (generationAttempts (trace (post req)) = 2
      /\ exists ctx e,
           result (retrieve (extractUserQuery lastParts)) = Normal ctx
           /\ streamText_throws services
                (primaryCall BBS_SYSTEM_PROMPT req ms (detectImages lastParts)
                             (fst ctx) (snd ctx)) = Some e).
Proof.
  intros Hjson Hlast Hparts.
  exact (POST_attempts_one_or_two req Hjson Hlast Hparts).
Qed.

(** X13.  For a request that reaches the [try], the handler fails only
    when the fallback generation call was made and threw, and then with
    the error of that call.  Otherwise it returns the stream of the last
    generation call of the run. *)
Theorem POST_outcome
  (req : Request) (ms : list UIMessage) (lastMessage : UIMessage)
  (lastParts : list UIPart) :
  json req = Normal {| body_messages := Some ms |} ->
  lastElement ms = Some lastMessage ->
  parts lastMessage = Some lastParts ->
  let fb := fallbackCall BBS_SYSTEM_PROMPT req ms in
  exists t call,
    trace (post req) = t ++ [StreamText call]
    /\ match result (post req) with
       | Normal response => response = UIMessageStreamResponse call
       | Throw e => call = fb /\ streamText_throws services fb = Some e
       end.
Proof.
  intros Hjson Hlast Hparts fb.
  destruct (@POST_cases BBS_SYSTEM_PROMPT JSON_parse JSON_stringify services
              req ms lastMessage lastParts Hjson Hlast Hparts)
    as [[t [ctx [Hr [[_ Hp]|[e [He Hp]]]]]]|[t [e [Hr Hp]]]];
    rewrite Hp; simpl; fold fb.
  - eexists; eexists. split; reflexivity.
  - exists ((t ++ [StreamText (primaryCall BBS_SYSTEM_PROMPT req ms
                                (detectImages lastParts) (fst ctx) (snd ctx))])
            ++ [ConsoleError "Error querying OpenAI Vector Store:" e]), fb.
    split; [now rewrite <- !app_assoc|].
    destruct (streamText_throws services fb); auto.
  - exists (t ++ [ConsoleError "Error querying OpenAI Vector Store:" e]), fb.
    split; [now rewrite <- !app_assoc|].
    destruct (streamText_throws services fb); auto.
Qed.

Lemma startsWith_append (p rest : string) : startsWith (p ++ rest) p = true.
Proof. apply startsWith_iff. now exists rest. Qed.

(** X14.  Every generation call of a request that reaches the [try]
    carries the conversation as received, in order, after one system
    message whose text starts with the instruction template; it uses the
    temperature 0.3, the abort signal of the request and one of the two
    models [gpt-4o] and [gpt-4o-mini]. *)
Theorem POST_generation_call_settings
  (req : Request) (ms : list UIMessage) (lastMessage : UIMessage)
  (lastParts : list UIPart) (call : StreamTextCall) :
  json req = Normal {| body_messages := Some ms |} ->
  lastElement ms = Some lastMessage ->
  parts lastMessage = Some lastParts ->
  In (StreamText call) (trace (post req)) ->
  (exists text,
      messages call = systemMessage text :: ms
      /\ startsWith text BBS_SYSTEM_PROMPT = true)
  /\ temperature call = 3 # 10
  /\ abortSignal call = signal req
  /\ (model call = "gpt-4o" \/ model call = "gpt-4o-mini").
Proof.
  intros Hjson Hlast Hparts Hin.
  apply (@POST_trace_in BBS_SYSTEM_PROMPT JSON_parse JSON_stringify services
           req ms lastMessage lastParts _ Hjson Hlast Hparts) in Hin.
  destruct Hin as [Hin|[[ctx [_ Hev]]|[[e Hev]|Hev]]]; try discriminate.
  - apply retrieve_trace_in in Hin. destruct Hin as [Hev|[msg Hev]]; discriminate.
  - injection Hev as ->. simpl. split; [|repeat split].
    + eexists. split; [reflexivity|]. apply startsWith_append.
    + destruct (detectImages lastParts); auto.
  - injection Hev as ->. simpl. split; [|repeat split; auto].
    exists BBS_SYSTEM_PROMPT. split; [reflexivity|].
    rewrite <- (append_empty_r BBS_SYSTEM_PROMPT) at 1. apply startsWith_append.
Qed.

(** C4.  Let the request reach the [try].  The query the handler forms
    is the texts of the parts of the final message that are tagged
    [text], in their order, joined by one space.  When that text is not
    blank the run starts with the retrieval call carrying exactly it,
    with a limit of 10, and makes no other retrieval call; when it is
    blank no retrieval call is made.  If the final message has no text
    part, no retrieval call is made and the system message of every
    generation call is the instruction template followed by two line
    feeds (primary call) or the template alone (fallback call): the
    delimited context block is absent, and the text holds a context
    marker only where the template does. *)
Theorem C4_query_is_joined_text_parts
  (req : Request) (ms : list UIMessage) (lastMessage : UIMessage)
  (lastParts : list UIPart) :
  json req = Normal {| body_messages := Some ms |} ->
  lastElement ms = Some lastMessage ->
  parts lastMessage = Some lastParts ->
  let textParts := filter (fun p => (partType p =? "text")%string) lastParts in
  let joined :=
    String.concat " " (map (fun p => orEmpty (partText p)) textParts) in
  extractUserQuery lastParts = joined
  /\ (if truthyString (trim joined)
      then exists rest,
             trace (post req) = VectorStoreSearch joined 10 :: rest
             /\ noSearch rest = true
      else noSearch (trace (post req)) = true)
  /\ (forall q n,
         In (VectorStoreSearch q n) (trace (post req)) -> q = joined /\ n = 10)
  /\ (textParts = [] ->
      (forall q n, ~ In (VectorStoreSearch q n) (trace (post req)))
      /\ forall call,
          In (StreamText call) (trace (post req)) ->
          exists text,
            messages call = systemMessage text :: ms
            /\ (text = (BBS_SYSTEM_PROMPT ++ LF ++ LF)%string
                \/ text = BBS_SYSTEM_PROMPT)
            /\ includes text CONTEXT_BEGIN = includes BBS_SYSTEM_PROMPT CONTEXT_BEGIN
            /\ includes text CONTEXT_END = includes BBS_SYSTEM_PROMPT CONTEXT_END).
Proof.
  intros Hjson Hlast Hparts textParts joined.
  assert (Hquery : extractUserQuery lastParts = joined).
  { unfold extractUserQuery. rewrite map_map. apply join_concat. }
  split; [exact Hquery|]. split.
  - destruct (POST_after_retrieval req Hjson Hlast Hparts) as [tail [Ht [Hns _]]].
    destruct (retrieve_trace_shape (extractUserQuery lastParts)) as [_ Hshape].
    rewrite Hquery in Ht, Hshape.
    destruct (truthyString (trim joined)).
    + destruct Hshape as [logs [Hlogs Hquiet]].
      exists (logs ++ tail). rewrite Ht, Hlogs. split; [reflexivity|].
      now rewrite noSearch_app, Hquiet, Hns.
    + rewrite Ht, Hshape. exact Hns.
  - exact (@POST_search_query_and_system_text
             BBS_SYSTEM_PROMPT JSON_parse JSON_stringify services
             req ms lastMessage lastParts Hjson Hlast Hparts).
Qed.

End PostMore.

Lemma C4_query_is_joined_text_parts_witness :
  (json findWheels = Normal {| body_messages := Some [userMessage findWheelsParts] |}
   /\ lastElement [userMessage findWheelsParts] = Some (userMessage findWheelsParts)
   /\ parts (userMessage findWheelsParts) = Some findWheelsParts
   /\ extractUserQuery findWheelsParts = "find wheels"
   /\ exists rest,
        trace (run (answering [otherJson]) findWheels)
        = VectorStoreSearch "find wheels" 10 :: rest
        /\ noSearch rest = true)
  /\ (json imageOnly = Normal {| body_messages := Some [userMessage imageParts] |}
      /\ lastElement [userMessage imageParts] = Some (userMessage imageParts)
      /\ parts (userMessage imageParts) = Some imageParts
      /\ forall services,
           (forall q n,
               ~ In (VectorStoreSearch q n) (trace (run services imageOnly)))
           /\ forall call,
               In (StreamText call) (trace (run services imageOnly)) ->
               exists text,
                 messages call = systemMessage text :: [userMessage imageParts]
                 /\ includes text CONTEXT_BEGIN = false
                 /\ includes text CONTEXT_END = false).
Proof.
  split.
  - do 3 (split; [reflexivity|]).
    destruct (@C4_query_is_joined_text_parts
                prompt RefJSON.parse RefJSON.stringify (answering [otherJson])
                findWheels [userMessage findWheelsParts]
                (userMessage findWheelsParts) findWheelsParts
                eq_refl eq_refl eq_refl) as [Hquery [Hsearch _]].
    split; [exact Hquery|exact Hsearch].
  - do 3 (split; [reflexivity|]).
    intros services.
    destruct (@C4_query_is_joined_text_parts
                prompt RefJSON.parse RefJSON.stringify services
                imageOnly [userMessage imageParts]
                (userMessage imageParts) imageParts
                eq_refl eq_refl eq_refl) as [_ [_ [_ Hnone]]].
    destruct (Hnone eq_refl) as [Hnosearch Hcalls].
    split; [exact Hnosearch|].
    intros call Hin.
    destruct (Hcalls call Hin) as [text [Hm [_ [Hb He]]]].
    exists text. split; [exact Hm|]. split.
    + rewrite Hb. reflexivity.
    + rewrite He. reflexivity.
Defined.

Lemma POST_retrieval_called_once_iff_query_not_blank_witness :
  json findWheels = Normal {| body_messages := Some [userMessage findWheelsParts] |}
  /\ lastElement [userMessage findWheelsParts] = Some (userMessage findWheelsParts)
  /\ parts (userMessage findWheelsParts) = Some findWheelsParts
  /\ exists rest,
       trace (run searchDown findWheels) = VectorStoreSearch "find wheels" 10 :: rest
       /\ noSearch rest = true.
Proof.
  repeat (split; [reflexivity|]).
  exact (@POST_retrieval_called_once_iff_query_not_blank
           prompt RefJSON.parse RefJSON.stringify searchDown findWheels
           [userMessage findWheelsParts] (userMessage findWheelsParts)
           findWheelsParts eq_refl eq_refl eq_refl).
Defined.

Lemma POST_generation_attempts_witness :
  json malformedFirstMessage
  = Normal {| body_messages :=
                Some [ {| id := None; role := None; parts := None |};
                       userMessage [TextPart "hi"] ] |}
  /\ lastElement [ {| id := None; role := None; parts := None |};
                   userMessage [TextPart "hi"] ]
     = Some (userMessage [TextPart "hi"])
  /\ parts (userMessage [TextPart "hi"]) = Some [TextPart "hi"]
  /\ (generationAttempts (trace (run (rejecting []) malformedFirstMessage)) = 1
      \/ (generationAttempts (trace (run (rejecting []) malformedFirstMessage)) = 2
          /\ exists ctx e,
               result (retrieveContext RefJSON.parse RefJSON.stringify (rejecting [])
                         (extractUserQuery [TextPart "hi"])) = Normal ctx
               /\ streamText_throws (rejecting [])
                    (primaryCall prompt malformedFirstMessage
                       [ {| id := None; role := None; parts := None |};
                         userMessage [TextPart "hi"] ]
                       (detectImages [TextPart "hi"]) (fst ctx) (snd ctx))
                  = Some e)).
Proof.
  repeat (split; [reflexivity|]).
  exact (@POST_generation_attempts
           prompt RefJSON.parse RefJSON.stringify (rejecting [])
           malformedFirstMessage _ (userMessage [TextPart "hi"]) [TextPart "hi"]
           eq_refl eq_refl eq_refl).
Defined.

Lemma POST_outcome_witness :
  json findWheels = Normal {| body_messages := Some [userMessage findWheelsParts] |}
  /\ lastElement [userMessage findWheelsParts] = Some (userMessage findWheelsParts)
  /\ parts (userMessage findWheelsParts) = Some findWheelsParts
  /\ exists t call,
       trace (run (rejecting [otherJson]) findWheels) = t ++ [StreamText call]
       /\ match result (run (rejecting [otherJson]) findWheels) with
          | Normal response => response = UIMessageStreamResponse call
          | Throw e =>
              call = fallbackCall prompt findWheels [userMessage findWheelsParts]
              /\ streamText_throws (rejecting [otherJson])
                   (fallbackCall prompt findWheels [userMessage findWheelsParts])
                 = Some e
          end.
Proof.
  repeat (split; [reflexivity|]).
  exact (@POST_outcome
           prompt RefJSON.parse RefJSON.stringify (rejecting [otherJson]) findWheels
           [userMessage findWheelsParts] (userMessage findWheelsParts)
           findWheelsParts eq_refl eq_refl eq_refl).
Defined.

Lemma POST_generation_call_settings_witness :
  json findWheels = Normal {| body_messages := Some [userMessage findWheelsParts] |}
  /\ lastElement [userMessage findWheelsParts] = Some (userMessage findWheelsParts)
  /\ parts (userMessage findWheelsParts) = Some findWheelsParts
  /\ In (StreamText (fallbackCall prompt findWheels [userMessage findWheelsParts]))
        (trace (run searchDown findWheels))
  /\ (exists text,
         messages (fallbackCall prompt findWheels [userMessage findWheelsParts])
         = systemMessage text :: [userMessage findWheelsParts]
         /\ startsWith text prompt = true)
  /\ temperature (fallbackCall prompt findWheels [userMessage findWheelsParts]) = 3 # 10
  /\ abortSignal (fallbackCall prompt findWheels [userMessage findWheelsParts])
     = signal findWheels
  /\ (model (fallbackCall prompt findWheels [userMessage findWheelsParts]) = "gpt-4o"
      \/ model (fallbackCall prompt findWheels [userMessage findWheelsParts])
         = "gpt-4o-mini").
Proof.
  repeat (split; [reflexivity|]).
  split; [right; right; left; reflexivity|].
  apply (@POST_generation_call_settings
           prompt RefJSON.parse RefJSON.stringify searchDown findWheels
           [userMessage findWheelsParts] (userMessage findWheelsParts)
           findWheelsParts
           (fallbackCall prompt findWheels [userMessage findWheelsParts])
           eq_refl eq_refl eq_refl).
  right. right. left. reflexivity.
Defined.

(** ** Blank queries *)

Lemma allChars_app (f : ascii -> bool) (a b : string) :
  allChars f (a ++ b) = allChars f a && allChars f b.
Proof.
  induction a as [|c a' IH]; simpl; [reflexivity|].
  now rewrite IH, andb_assoc.
Qed.

Lemma dropSpaces_cases (s : string) :
  if allChars isSpace s
  then dropSpaces s = EmptyString
  else exists c rest, dropSpaces s = String c rest /\ isSpace c = false.
Proof.
  induction s as [|c s' IH]; simpl; [reflexivity|].
  destruct (isSpace c) eqn:E; simpl; [exact IH|].
  exists c, s'. auto.
Qed.

Lemma dropSpacesEnd_empty (s : string) :
  dropSpacesEnd s = EmptyString -> allChars isSpace s = true.
Proof.
  induction s as [|c s' IH]; simpl; [reflexivity|].
  destruct (dropSpacesEnd s') as [|c' r]; [|discriminate].
  destruct (isSpace c); [|discriminate].
  intros _. now apply IH.
Qed.

(** [s.trim()] is empty exactly when [s] is made of white space only. *)
Lemma trim_empty_iff (s : string) :
  trim s = EmptyString <-> allChars isSpace s = true.
Proof.
  unfold trim. pose proof (dropSpaces_cases s) as Hcases.
  destruct (allChars isSpace s).
  - rewrite Hcases. split; reflexivity.
  - destruct Hcases as [c [rest [Hd Hc]]]. rewrite Hd. split; [|discriminate].
    intros H. apply dropSpacesEnd_empty in H. simpl in H.
    rewrite Hc in H. discriminate.
Qed.

Lemma allChars_isSpace_join (xs : list string) :
  allChars isSpace (join " " xs) = forallb (allChars isSpace) xs.
Proof.
  induction xs as [|x rest IH]; [reflexivity|].
  destruct rest as [|y rest'].
  - simpl. now rewrite andb_true_r.
  - change (join " " (x :: y :: rest'))
      with (x ++ " " ++ join " " (y :: rest'))%string.
    rewrite allChars_app, allChars_app, IH. reflexivity.
Qed.

(** X16.  The query extracted from the last message is blank, so that
    retrieval is skipped, exactly when every part tagged [text] holds
    white space only (or no text at all).  Parts of other kinds play no
    role. *)
Theorem userQuery_blank_iff (lastParts : list UIPart) :
  truthyString (trim (extractUserQuery lastParts)) = false
  <-> forall part,
        In part lastParts ->
        partType part = "text" ->
        allChars isSpace (orEmpty (partText part)) = true.
Proof.
  assert (Hblank : truthyString (trim (extractUserQuery lastParts)) = false
                   <-> allChars isSpace (extractUserQuery lastParts) = true).
  { rewrite <- trim_empty_iff.
    destruct (trim (extractUserQuery lastParts)); simpl; split;
      congruence. }
  rewrite Hblank. unfold extractUserQuery.
  rewrite allChars_isSpace_join, map_map, forallb_forall. split.
  - intros H part Hin Htype. apply H. apply in_map_iff. exists part.
    split; [reflexivity|]. apply filter_In. split; [exact Hin|].
    now apply String.eqb_eq.
  - intros H x Hx. apply in_map_iff in Hx. destruct Hx as [part [<- Hin]].
    apply filter_In in Hin. destruct Hin as [Hin Htype].
    apply H; [exact Hin|]. now apply String.eqb_eq.
Qed.

Example userQuery_blank_text_parts :
  extractUserQuery [TextPart "  "; FilePart (Some "image/png") "u"; TextPart LF] =
  ("  " ++ " " ++ LF)%string
  /\ trace (run searchDown
              (requestOf [userMessage [TextPart "  ";
                                       FilePart (Some "image/png") "u";
                                       TextPart LF]]))
     = [StreamText
          (primaryCall prompt
             (requestOf [userMessage [TextPart "  ";
                                      FilePart (Some "image/png") "u";
                                      TextPart LF]])
             [userMessage [TextPart "  "; FilePart (Some "image/png") "u";
                           TextPart LF]]
             true EmptyString [])].
Proof. split; reflexivity. Qed.
